(** * Employee attendance backend (backend.py): model and verification

    The backend has three request handlers: [get_all_employees] lists the
    employee directory, [generate_attendance_sql] asks a text-generation
    service for one INSERT statement per employee and checks each reply,
    and [execute_generated_sql] re-checks a batch of statements and runs
    it in a single transaction.

    Text is modelled by [string] (ASCII: the builtins below agree with
    Python's [str] methods on 7-bit text).  The generation service and the
    two databases are external collaborators: they appear as interfaces
    (type classes) whose operations the handlers call, and every call is
    recorded so that "no call was made" can be stated. *)

From Stdlib Require Import Bool Arith Lia List String Ascii.
From Stdlib Require Import Sorting.Sorted Sorting.Permutation.
From Stdlib Require Import Numbers.DecimalString.
Import ListNotations.
Open Scope string_scope.

(** ** Python string builtins used by the handlers *)

Module PyStr.

(** [str.isspace] on one ASCII character: TAB, LF, VT, FF, CR, the four
    separators FS..US and the space. *)
Definition is_space (c : ascii) : bool :=
  let n := nat_of_ascii c in
  ((9 <=? n)%nat && (n <=? 13)%nat) || ((28 <=? n)%nat && (n <=? 32)%nat).

Definition is_lower (c : ascii) : bool :=
  let n := nat_of_ascii c in (97 <=? n)%nat && (n <=? 122)%nat.

Definition upper_char (c : ascii) : ascii :=
  if is_lower c then ascii_of_nat (nat_of_ascii c - 32) else c.

(** [s.upper()] *)
Fixpoint upper (s : string) : string :=
  match s with
  | EmptyString => EmptyString
  | String c r => String (upper_char c) (upper r)
  end.

(** [s.lstrip()] *)
Fixpoint lstrip (s : string) : string :=
  match s with
  | EmptyString => EmptyString
  | String c r => if is_space c then lstrip r else s
  end.

(** [s.rstrip()] *)
Fixpoint rstrip (s : string) : string :=
  match s with
  | EmptyString => EmptyString
  | String c r =>
      match rstrip r with
      | EmptyString => if is_space c then EmptyString else String c EmptyString
      | r' => String c r'
      end
  end.

(** [s.strip()] *)
Definition strip (s : string) : string := rstrip (lstrip s).

(** [s.startswith(p)] *)
Definition startswith (s p : string) : bool := String.prefix p s.

(** [needle in hay] for two strings: substring search. *)
Fixpoint contains (needle hay : string) : bool :=
  match hay with
  | EmptyString => String.prefix needle EmptyString
  | String _ rest => String.prefix needle hay || contains needle rest
  end.

(** [x in xs] for a list of strings: membership by equality. *)
Definition mem (x : string) (xs : list string) : bool :=
  existsb (String.eqb x) xs.

(** [str(n)] for a non-negative integer. *)
Definition str_of_nat (n : nat) : string :=
  NilZero.string_of_uint (Nat.to_uint n).

(** Truthiness of a string and of a list, as [all([...])] and [not x]
    test them. *)
Definition truthy_str (s : string) : bool :=
  match s with EmptyString => false | _ => true end.

Definition truthy_list {A : Type} (l : list A) : bool :=
  match l with [] => false | _ => true end.

(** The last character of a string. *)
Fixpoint last_char (s : string) : option ascii :=
  match s with
  | "" => None
  | String c "" => Some c
  | String _ r => last_char r
  end.

(** A text whose first and last characters are not white space. *)
Definition solid_edges (k : string) : bool :=
  match k, last_char k with
  | String c _, Some d => negb (is_space c) && negb (is_space d)
  | _, _ => false
  end.

End PyStr.

(** ** The two statement checks *)

Module Validator.
Import PyStr.

Definition table_prefix : string := "INSERT INTO PMO_DAILY_ATTENDNACE".

(** [expected_columns] of [generate_attendance_sql]. *)
Definition expected_columns : list string :=
  ["EMPLOYEE_ID"; "EMPLOYEE_TYPE"; "ATTENDANCE_TYPE"; "ATTENDANCE_DATE";
   "ATTENDANCE_TIME"; "INSERTED_BY_ID"].

(** The condition tested right after drafting, on the stripped reply
    [generated_sql]. *)
Definition post_draft_check (generated_sql : string) : bool :=
  let normalized_sql := upper generated_sql in
  startswith normalized_sql table_prefix
  && forallb (fun col => contains col normalized_sql) expected_columns.

(** The [ValueError] text raised when that condition fails. *)
Definition invalid_draft_message (generated_sql : string) : string :=
  "Groq generated an invalid SQL query. It must be an INSERT into PMO_DAILY_ATTENDNACE and include all required columns. Generated: "
  ++ generated_sql.

(** [expected_columns_pattern] of [execute_generated_sql]. *)
Definition expected_columns_pattern : string :=
  "EMPLOYEE_ID, EMPLOYEE_TYPE, ATTENDANCE_TYPE, ATTENDANCE_DATE, ATTENDANCE_TIME, INSERTED_BY_ID".

Definition dangerous_keywords : list string :=
  ["DELETE"; "UPDATE"; "DROP"; "TRUNCATE"; "ALTER"; "CREATE"; "GRANT";
   "REVOKE"; "SELECT"; "UNION"; "JOIN"; "EXEC"; "EXECUTE"; "INTO OUTFILE";
   "--"; "/*"; "*/"].

(** The shape condition tested before execution. *)
Definition shape_ok (normalized_query : string) : bool :=
  startswith normalized_query "INSERT INTO PMO_DAILY_ATTENDNACE ("
  && contains expected_columns_pattern normalized_query
  && contains ") VALUES (" normalized_query.

Definition has_dangerous_keyword (normalized_query : string) : bool :=
  existsb (fun keyword => contains keyword normalized_query)
          dangerous_keywords.

Definition shape_message (sql_query : string) : string :=
  "One of the queries does not match the expected INSERT into PMO_DAILY_ATTENDNACE with all required columns: "
  ++ sql_query.

Definition keyword_message (sql_query : string) : string :=
  "One of the queries contains disallowed keywords, indicating a potential security risk: "
  ++ sql_query.

(** The checks of the execution loop on one statement: [None] when the
    statement goes on to [cur.execute], [Some msg] when [ValueError(msg)]
    is raised. *)
Definition validate_query (sql_query : string) : option string :=
  let normalized_query := upper (strip sql_query) in
  if negb (shape_ok normalized_query) then Some (shape_message sql_query)
  else if has_dangerous_keyword normalized_query
       then Some (keyword_message sql_query)
       else None.

(** Accept/reject view of the check before execution. *)
Definition pre_exec_check (sql_query : string) : bool :=
  match validate_query sql_query with None => true | Some _ => false end.

(** The example statement of the drafting prompt. *)
Definition example_statement : string :=
  "INSERT INTO PMO_DAILY_ATTENDNACE (EMPLOYEE_ID, EMPLOYEE_TYPE, ATTENDANCE_TYPE, ATTENDANCE_DATE, ATTENDANCE_TIME, INSERTED_BY_ID) VALUES ('1483', 'Trainee', 'Present', '2025-06-05', '09:00:00', '1483');".

(** [inject i k s] is [s[:i] + k + s[i:]]. *)
Definition inject (i : nat) (k s : string) : string :=
  substring 0 i s ++ k ++ substring i (String.length s - i) s.

End Validator.

Import PyStr Validator.

(** ** HTTP responses *)

(** A row of the [employee] table, as the dictionary cursor returns it. *)
Record Employee : Type := { id : string; name : string }.

(** The JSON objects the handlers return. *)
Inductive Body : Type :=
| ErrorBody (error : string)
| SqlQueries (sql_queries : list string)
| Message (message : string)
| Employees (employees : list Employee).

Record Response : Type := { body : Body; status : nat }.

Definition jsonify (b : Body) (code : nat) : Response :=
  {| body := b; status := code |}.

(** ** The generation service *)

(** The keyword arguments of [groq_client.chat.completions.create]; the two
    messages are the system instruction and the user prompt, the
    temperature is kept as its decimal literal. *)
Record ChatRequest : Type := {
  system_content : string;
  user_content : string;
  model : string;
  temperature : string;
  max_tokens : nat
}.

(** One call: [inl content] is [choices[0].message.content], [inr e] is the
    text [str(e)] of an exception raised by the call.  The service has a
    state of its own, so two calls with one prompt may differ. *)
Class GenerationService : Type := {
  svc_state : Type;
  completions_create : svc_state -> ChatRequest -> (string + string) * svc_state
}.

Record Interaction : Type := {
  sent : ChatRequest;
  received : string + string
}.

Module Drafter.

Definition prompt_head : string :=
"
        You are an SQL query generator. Generate an SQL INSERT statement for recording employee attendance in a MySQL database.
        The table name is `PMO_DAILY_ATTENDNACE`.
        The table has the following columns (and their data types/behavior):
        - `ATTENDANCE_ID` (INT AUTO_INCREMENT PRIMARY KEY - auto-generated, do NOT include in INSERT)
        - `EMPLOYEE_ID` (VARCHAR(50) - refers to emp_id, a string)
        - `EMPLOYEE_TYPE` (VARCHAR(50) or ENUM - e.g., 'Trainee', 'Full-time')
        - `ATTENDANCE_TYPE` (VARCHAR(50) or ENUM - e.g., 'Present', 'Absent', 'Late')
        - `ATTENDANCE_DATE` (DATE - in 'YYYY-MM-DD' format)
        - `ATTENDANCE_TIME` (TIME - in 'HH:MM:SS' format)
        - `INSERTED_BY_ID` (VARCHAR(50) - refers to the emp_id of the person recording, a string)
        - `INSERTION_DATETIME` (TIMESTAMP DEFAULT CURRENT_TIMESTAMP - auto-generated, do NOT include in INSERT)

        Based on the following information, generate ONLY the SQL INSERT statement. Do not include any other text, explanations, or backticks.
        Ensure all string values are enclosed in single quotes.
        Ensure the date is in 'YYYY-MM-DD' format and time is in 'HH:MM:SS' format.

        Employee ID: '".

Definition prompt_employee_type : string :=
"'
        Employee Type: '".

Definition prompt_attendance_type : string :=
"'
        Attendance Type: '".

Definition prompt_attendance_date : string :=
"'
        Attendance Date: '".

Definition prompt_attendance_time : string :=
"'
        Attendance Time: '".

Definition prompt_inserted_by : string :=
"'
        Inserted By ID: '".

Definition prompt_tail : string :=
"'

        Example format: INSERT INTO PMO_DAILY_ATTENDNACE (EMPLOYEE_ID, EMPLOYEE_TYPE, ATTENDANCE_TYPE, ATTENDANCE_DATE, ATTENDANCE_TIME, INSERTED_BY_ID) VALUES ('1483', 'Trainee', 'Present', '2025-06-05', '09:00:00', '1483');
        ".

(** The f-string [prompt] of the loop body. *)
Definition build_prompt
  (emp_id employee_type attendance_type meeting_date meeting_time
   inserted_by_id : string) : string :=
  prompt_head ++ emp_id ++ prompt_employee_type ++ employee_type
  ++ prompt_attendance_type ++ attendance_type
  ++ prompt_attendance_date ++ meeting_date
  ++ prompt_attendance_time ++ meeting_time
  ++ prompt_inserted_by ++ inserted_by_id ++ prompt_tail.

Definition system_instruction : string :=
  "You are an SQL query generator assistant for MySQL. Provide only the SQL INSERT query with all specified columns.".

Definition chat_request (prompt : string) : ChatRequest :=
  {| system_content := system_instruction;
     user_content := prompt;
     model := "llama3-8b-8192";
     temperature := "0.1";
     max_tokens := 200 |}.

(** [attendance_type] of the loop body. *)
Definition attendance_type_of (emp_id : string) (present_employee_ids : list string) : string :=
  if mem emp_id present_employee_ids then "Present" else "Absent".

(** The request sent for one employee. *)
Definition request_for
  (present_employee_ids : list string)
  (meeting_date meeting_time inserted_by_id emp_id : string) : ChatRequest :=
  chat_request
    (build_prompt emp_id "Trainee"
       (attendance_type_of emp_id present_employee_ids)
       meeting_date meeting_time inserted_by_id).

(** The JSON body of a drafting request: a key that is absent (or null)
    is [None]. *)
Record GenRequest : Type := {
  present_employee_ids : option (list string);
  all_employee_ids : option (list string);
  meeting_time_str : option string;
  meeting_date : option string;
  inserted_by_id : option string
}.

Definition required_fields_message : string :=
  "All fields (all_employee_ids, present_employee_ids, date, time, inserted by ID) are required.".

Definition failed_message (emp_id e : string) : string :=
  "Failed to generate SQL query for employee " ++ emp_id ++ ": " ++ e.

Section Handler.
Context {service : GenerationService}.

(** What the handler can observe and change: the service and the record
    of the calls made to it, oldest first. *)
Record World : Type := {
  svc : svc_state;
  calls : list Interaction
}.

(** [for emp_id in all_employee_ids: ...] with [generated_sqls] as the
    accumulator; a [return] inside the loop ends it. *)
Fixpoint draft_loop
  (present : list string) (date time by_id : string)
  (ids : list string) (generated_sqls : list string) (w : World)
  : Response * World :=
  match ids with
  | [] => (jsonify (SqlQueries generated_sqls) 200, w)
  | emp_id :: rest =>
      let req := request_for present date time by_id emp_id in
      let (res, s') := completions_create (svc w) req in
      let w' := {| svc := s';
                   calls := calls w ++ [{| sent := req; received := res |}] |} in
      match res with
      | inr e => (jsonify (ErrorBody (failed_message emp_id e)) 500, w')
      | inl content =>
          let generated_sql := strip content in
          if negb (post_draft_check generated_sql)
          then (jsonify (ErrorBody
                  (failed_message emp_id (invalid_draft_message generated_sql)))
                  500, w')
          else draft_loop present date time by_id rest
                 (generated_sqls ++ [generated_sql]) w'
      end
  end.

Definition get_list (field : option (list string)) : list string :=
  match field with Some l => l | None => [] end.

Definition truthy_field (field : option string) : bool :=
  match field with Some s => truthy_str s | None => false end.

(** A field as an f-string renders it ([None] prints as its name). *)
Definition field_text (field : option string) : string :=
  match field with Some s => s | None => "None" end.

(** The test [all([all_employee_ids, present_employee_ids, meeting_time,
    meeting_date, inserted_by_id])]: every value is truthy. *)
Definition all_fields_truthy (data : GenRequest) : bool :=
  forallb (fun b : bool => b)
    [truthy_list (get_list (all_employee_ids data));
     truthy_list (get_list (present_employee_ids data));
     truthy_field (meeting_time_str data);
     truthy_field (meeting_date data);
     truthy_field (inserted_by_id data)].

(** The handler of [POST /generate_attendance_sql]. *)
Definition generate_attendance_sql (data : GenRequest) (w : World)
  : Response * World :=
  let present_employee_ids := get_list (present_employee_ids data) in
  let all_employee_ids := get_list (all_employee_ids data) in
  if negb (all_fields_truthy data)
  then (jsonify (ErrorBody required_fields_message) 400, w)
  else draft_loop present_employee_ids
         (field_text (meeting_date data)) (field_text (meeting_time_str data))
         (field_text (inserted_by_id data)) all_employee_ids [] w.

(** The service is modelled "as returning statements that pass the check
    made after drafting": whatever its state and the request, it answers,
    and its stripped answer passes. *)
Definition well_behaved : Prop :=
  forall (st : svc_state) (req : ChatRequest),
    exists content st',
      completions_create st req = (inl content, st')
      /\ post_draft_check (strip content) = true.

(** [DraftsOk p d t b st ids log stmts st']: starting in state [st], the
    calls for [ids], made in order, all answer with a statement that passes
    the check; [log] are the interactions, [stmts] the stripped answers. *)
Inductive DraftsOk (present : list string) (date time by_id : string)
  : svc_state -> list string -> list Interaction -> list string
    -> svc_state -> Prop :=
| DraftsOk_nil : forall st, DraftsOk present date time by_id st [] [] [] st
| DraftsOk_cons : forall st emp_id content st1 ids log stmts st',
    completions_create st (request_for present date time by_id emp_id)
      = (inl content, st1) ->
    post_draft_check (strip content) = true ->
    DraftsOk present date time by_id st1 ids log stmts st' ->
    DraftsOk present date time by_id st (emp_id :: ids)
      ({| sent := request_for present date time by_id emp_id;
          received := inl content |} :: log)
      (strip content :: stmts) st'.

(** [DraftFails p d t b st emp_id io cause st']: in state [st] the call for
    [emp_id] raises, or answers with a text that fails the check; [cause]
    is the text of the exception. *)
Inductive DraftFails (present : list string) (date time by_id : string)
  : svc_state -> string -> Interaction -> string -> svc_state -> Prop :=
| DraftFails_service : forall st emp_id e st',
    completions_create st (request_for present date time by_id emp_id)
      = (inr e, st') ->
    DraftFails present date time by_id st emp_id
      {| sent := request_for present date time by_id emp_id;
         received := inr e |} e st'
| DraftFails_check : forall st emp_id content st',
    completions_create st (request_for present date time by_id emp_id)
      = (inl content, st') ->
    post_draft_check (strip content) = false ->
    DraftFails present date time by_id st emp_id
      {| sent := request_for present date time by_id emp_id;
         received := inl content |}
      (invalid_draft_message (strip content)) st'.

End Handler.

End Drafter.

(** ** The attendance store *)

(** The attendance database: [db_execute] runs one statement on the
    working state of the open transaction and gives the new working state,
    or the text of the error it raises.  A connection starts a transaction
    on the committed state (autocommit is off, the connector's default);
    [commit] makes the working state the committed one, [rollback] drops
    it.  The connection is taken to stay alive once obtained, so
    [conn.is_connected()] holds in the handlers' [except] and [finally]
    blocks. *)
Class AttendanceStore : Type := {
  store : Type;
  DB_NAME_NRKINDEX_TRN : string;
  db_execute : store -> string -> store + string
}.

Inductive DbEvent : Type :=
| EvConnect (db_name : string) (ok : bool)
| EvExecute (sql_query : string)
| EvCommit
| EvRollback
| EvClose.

Module Executor.

Definition no_queries_message : string :=
  "No SQL queries provided for execution".

Definition connect_failed_message (db_name : string) : string :=
  "Failed to connect to the attendance database '" ++ db_name
  ++ "'. Check backend logs for connection details.".

Definition success_message (n : nat) : string :=
  "Successfully executed " ++ str_of_nat n
  ++ " SQL queries. Attendance recorded.".

Definition execution_error_message (e : string) : string :=
  "Error executing queries: " ++ e
  ++ ". Please check the generated SQL syntax and data.".

Section Handler.
Context {db : AttendanceStore}.

(** The database as the handler meets it: the committed state, whether a
    connection can be had, and the record of all interactions. *)
Record World : Type := {
  committed : store;
  reachable : bool;
  events : list DbEvent
}.

(** [for sql_query in sql_queries: ...] inside the cursor: [inl working]
    when the loop ends normally, [inr e] when an exception with text [e]
    leaves it. *)
Fixpoint run_queries
  (sql_queries : list string) (working : store) (evs : list DbEvent)
  : (store + string) * list DbEvent :=
  match sql_queries with
  | [] => (inl working, evs)
  | sql_query :: rest =>
      match validate_query sql_query with
      | Some msg => (inr msg, evs)
      | None =>
          match db_execute working sql_query with
          | inr e => (inr e, (evs ++ [EvExecute sql_query])%list)
          | inl working' =>
              run_queries rest working' (evs ++ [EvExecute sql_query])%list
          end
      end
  end.

(** The handler of [POST /execute_generated_sql]; the argument is the value
    of the key [sql_queries], [None] when the key is absent. *)
Definition execute_generated_sql (field : option (list string)) (w : World)
  : Response * World :=
  let sql_queries := match field with Some l => l | None => [] end in
  if negb (truthy_list sql_queries)
  then (jsonify (ErrorBody no_queries_message) 400, w)
  else
    let evs := (events w ++ [EvConnect DB_NAME_NRKINDEX_TRN (reachable w)])%list in
    if negb (reachable w)
    then (jsonify (ErrorBody (connect_failed_message DB_NAME_NRKINDEX_TRN)) 500,
          {| committed := committed w; reachable := reachable w; events := evs |})
    else
      match run_queries sql_queries (committed w) evs with
      | (inl working, evs') =>
          (jsonify (Message (success_message (List.length sql_queries))) 200,
           {| committed := working; reachable := reachable w;
              events := evs' ++ [EvCommit; EvClose] |})
      | (inr e, evs') =>
          (jsonify (ErrorBody (execution_error_message e)) 500,
           {| committed := committed w; reachable := reachable w;
              events := evs' ++ [EvRollback; EvClose] |})
      end.

(** Position and cause of the first statement of a batch that fails its
    check or its execution, none when the whole batch runs. *)
Fixpoint first_failure (sql_queries : list string) (working : store)
  : option (nat * string) :=
  match sql_queries with
  | [] => None
  | sql_query :: rest =>
      match validate_query sql_query with
      | Some msg => Some (0, msg)
      | None =>
          match db_execute working sql_query with
          | inr e => Some (0, e)
          | inl working' =>
              match first_failure rest working' with
              | Some (k, cause) => Some (S k, cause)
              | None => None
              end
          end
      end
  end.

(** [Runs st batch st']: every statement of the batch passes the check and
    executes, taking the working state from [st] to [st']. *)
Inductive Runs : store -> list string -> store -> Prop :=
| Runs_nil : forall st, Runs st [] st
| Runs_cons : forall st st1 st' q rest,
    validate_query q = None ->
    db_execute st q = inl st1 ->
    Runs st1 rest st' ->
    Runs st (q :: rest) st'.

(** [Fails st batch]: some statement of the batch fails its check or its
    execution when the batch is run in order from [st]. *)
Inductive Fails : store -> list string -> Prop :=
| Fails_check : forall st q rest msg,
    validate_query q = Some msg -> Fails st (q :: rest)
| Fails_execute : forall st q rest e,
    validate_query q = None -> db_execute st q = inr e -> Fails st (q :: rest)
| Fails_later : forall st st1 q rest,
    validate_query q = None -> db_execute st q = inl st1 ->
    Fails st1 rest -> Fails st (q :: rest).

End Handler.

End Executor.

(** ** The employee directory *)

(** The directory database: its name and the collation of the [name]
    column, the order that [ORDER BY name ASC] sorts by. *)
Class DirectoryStore : Type := {
  DB_NAME_CR : string;
  name_leb : string -> string -> bool
}.

Module Directory.

Definition employees_query : string :=
  "SELECT id, name FROM employee ORDER BY name ASC".

Definition connect_failed_message (db_name : string) : string :=
  "Failed to connect to the CR database '" ++ db_name
  ++ "'. Check backend logs for connection details.".

Definition fetch_error_message (e : string) : string :=
  "An internal server error occurred while fetching employees: " ++ e.

Section Handler.
Context {dir : DirectoryStore}.

(** The directory as the handler meets it: the rows of [employee] in
    storage order, whether a connection can be had, and the error the
    server raises on a query, if any. *)
Record World : Type := {
  employee : list Employee;
  reachable : bool;
  query_error : option string
}.

Fixpoint insert_by_name (e : Employee) (rows : list Employee) : list Employee :=
  match rows with
  | [] => [e]
  | r :: rest =>
      if name_leb (name e) (name r) then e :: rows
      else r :: insert_by_name e rest
  end.

(** [ORDER BY name ASC] over a list of rows. *)
Fixpoint order_by_name (rows : list Employee) : list Employee :=
  match rows with
  | [] => []
  | r :: rest => insert_by_name r (order_by_name rest)
  end.

(** [cur.execute(q); cur.fetchall()]: the model gives a meaning to the one
    statement the handler sends, any other text is refused. *)
Definition cur_execute (w : World) (q : string) : list Employee + string :=
  match query_error w with
  | Some e => inr e
  | None =>
      if String.eqb q employees_query
      then inl (order_by_name (employee w))
      else inr "unsupported statement"
  end.

(** The handler of [GET /get_all_employees], with the interactions it has
    with the database. *)
Definition get_all_employees (w : World) : Response * list DbEvent :=
  if negb (reachable w)
  then (jsonify (ErrorBody (connect_failed_message DB_NAME_CR)) 500,
        [EvConnect DB_NAME_CR false])
  else
    match cur_execute w employees_query with
    | inl employees =>
        (jsonify (Employees employees) 200,
         [EvConnect DB_NAME_CR true; EvExecute employees_query; EvClose])
    | inr e =>
        (jsonify (ErrorBody (fetch_error_message e)) 500,
         [EvConnect DB_NAME_CR true; EvExecute employees_query; EvClose])
    end.

(** Ascending by name: each row's name is at most the next one's. *)
Definition le_name (a b : Employee) : Prop :=
  name_leb (name a) (name b) = true.

Definition ascending_by_name (rows : list Employee) : Prop :=
  Sorted le_name rows.

End Handler.

End Directory.

(** ** Concrete collaborators, used to run the handlers on examples *)

(** A service that answers from a script, one entry per call, and raises
    once the script is used up. *)
#[local] Instance scripted_service : GenerationService := {|
  svc_state := list (string + string);
  completions_create := fun script _ =>
    match script with
    | [] => (inr "Connection error.", [])
    | reply :: rest => (reply, rest)
    end
|}.

Definition absent_statement : string :=
  "INSERT INTO PMO_DAILY_ATTENDNACE (EMPLOYEE_ID, EMPLOYEE_TYPE, ATTENDANCE_TYPE, ATTENDANCE_DATE, ATTENDANCE_TIME, INSERTED_BY_ID) VALUES ('1500', 'Trainee', 'Absent', '2025-06-05', '09:00:00', '1483');".

(** A service that answers with a statement of the expected shape, padded
    with white space the way a completion often is, and counts its calls. *)
#[local] Instance example_service : GenerationService := {|
  svc_state := nat;
  completions_create := fun n req =>
    (inl (" " ++ (if contains "Attendance Type: 'Present'" (user_content req)
                  then example_statement else absent_statement) ++ "
"), S n)
|}.

(** Worlds in which no call has been made yet. *)
Definition example_world (n : nat) : @Drafter.World example_service :=
  @Drafter.Build_World example_service n [].

Definition scripted_world (script : list (string + string))
  : @Drafter.World scripted_service :=
  @Drafter.Build_World scripted_service script [].

(** A store that keeps the executed statements in order and refuses a
    statement it already holds. *)
#[local] Instance list_store : AttendanceStore := {|
  store := list string;
  DB_NAME_NRKINDEX_TRN := "nrkindex_trn";
  db_execute := fun st q =>
    if mem q st then inr "1062 (23000): Duplicate entry"
    else inl (st ++ [q])%list
|}.

Definition list_world (rows : list string) : @Executor.World list_store :=
  @Executor.Build_World list_store rows true [].

(** A directory collated by code point. *)
#[local] Instance binary_directory : DirectoryStore := {|
  DB_NAME_CR := "cr";
  name_leb := String.leb
|}.

(** Accepted right after drafting, refused before execution. *)
Definition trailing_drop_statement : string :=
  example_statement ++ " DROP TABLE PMO_DAILY_ATTENDNACE;".

Definition not_an_insert : string := "Sorry, I cannot help with that.".

(** ** The front page *)

Module Frontend.
Import Directory.

(** [render_template(template, employees=employees)]: the template and the
    value it is given. *)
Record Page : Type := { template : string; employees : list Employee }.

Definition render_template (t : string) (rows : list Employee) : Page :=
  {| template := t; employees := rows |}.

Definition no_connection_line (db_name : string) : string :=
  "Failed to get DB connection for " ++ db_name ++ " in index route.".

Definition fetch_error_line (e : string) : string :=
  "Error fetching employees for frontend: " ++ e.

Section Handler.
Context {dir : DirectoryStore}.

(** The handler of [GET /]: the page, the interactions with the database
    and the lines printed. *)
Definition index (w : World) : Page * list DbEvent * list string :=
  let employees : list Employee := [] in
  if reachable w
  then
    match cur_execute w employees_query with
    | inl rows =>
        (render_template "index.html" rows,
         [EvConnect DB_NAME_CR true; EvExecute employees_query; EvClose], [])
    | inr e =>
        (render_template "index.html" employees,
         [EvConnect DB_NAME_CR true; EvExecute employees_query; EvClose],
         [fetch_error_line e])
    end
  else (render_template "index.html" employees,
        [EvConnect DB_NAME_CR false], [no_connection_line DB_NAME_CR]).

End Handler.

End Frontend.

(** ** Configuration at start-up *)

Module Startup.

(** [os.environ.get] after [load_dotenv()]: the value of a variable, if it
    is set. *)
Definition environ : Type := string -> option string.

(** Truthiness of what [os.environ.get] returns. *)
Definition truthy (v : option string) : bool :=
  match v with Some (String _ _) => true | _ => false end.

(** A value inside an f-string. *)
Definition fmt (v : option string) : string :=
  match v with Some s => s | None => "None" end.

(** [s * n] *)
Fixpoint str_mul (s : string) (n : nat) : string :=
  match n with 0 => "" | S n' => s ++ str_mul s n' end.

(** [len(v)] of a value that is a string. *)
Definition len (v : option string) : nat := String.length (fmt v).

(** The module-level settings. *)
Record Settings : Type := {
  GROQ_API_KEY : option string;
  DB_HOST : option string;
  DB_PORT : option string;
  DB_USER : option string;
  DB_PASSWORD : option string;
  DB_NAME_CR : option string;
  DB_NAME_NRKINDEX_TRN : option string
}.

Definition groq_key_message : string :=
  "GROQ_API_KEY environment variable not set. Please set it before running the app.".

Definition db_config_message : string :=
  "One or more database environment variables (DB_HOST, DB_PORT, DB_USER, DB_PASSWORD, DB_NAME_CR, DB_NAME_NRKINDEX_TRN) are not set. Please set them before running the app.".

(** The variables named by that message. *)
Definition db_variables : list string :=
  ["DB_HOST"; "DB_PORT"; "DB_USER"; "DB_PASSWORD"; "DB_NAME_CR";
   "DB_NAME_NRKINDEX_TRN"].

(** The lines of the configuration check printed at start-up. *)
Definition config_lines (cfg : Settings) : list string :=
  ["
--- Flask App DB Config Check ---";
   "DB_HOST: " ++ fmt (DB_HOST cfg);
   "DB_PORT: " ++ fmt (DB_PORT cfg);
   "DB_USER: " ++ fmt (DB_USER cfg);
   "DB_PASSWORD: " ++ (if truthy (DB_PASSWORD cfg)
                       then str_mul "*" (len (DB_PASSWORD cfg))
                       else "NOT SET");
   "DB_NAME_CR: " ++ fmt (DB_NAME_CR cfg);
   "DB_NAME_NRKINDEX_TRN: " ++ fmt (DB_NAME_NRKINDEX_TRN cfg);
   "---------------------------------
"].

(** The module body up to the handlers: the settings and the printed lines,
    or the text of the [ValueError] that stops the program. *)
Definition startup (env : environ) : (Settings * list string) + string :=
  let GROQ_API_KEY := env "GROQ_API_KEY" in
  if negb (truthy GROQ_API_KEY) then inr groq_key_message
  else
    let DB_HOST := env "DB_HOST" in
    let DB_PORT := env "DB_PORT" in
    let DB_USER := env "DB_USER" in
    let DB_PASSWORD := env "DB_PASSWORD" in
    let DB_NAME_CR := env "DB_NAME_CR" in
    let DB_NAME_NRKINDEX_TRN := env "DB_NAME_NRKINDEX_TRN" in
    if negb (forallb (fun b : bool => b)
               [truthy DB_HOST; truthy DB_PORT; truthy DB_USER;
                truthy DB_PASSWORD; truthy DB_NAME_CR;
                truthy DB_NAME_NRKINDEX_TRN])
    then inr db_config_message
    else
      let cfg := Build_Settings GROQ_API_KEY DB_HOST DB_PORT DB_USER
                   DB_PASSWORD DB_NAME_CR DB_NAME_NRKINDEX_TRN in
      inl (cfg, config_lines cfg).

(** What start-up shows: the printed lines, or the error. *)
Definition startup_output (env : environ) : list string + string :=
  match startup env with
  | inl (_, printed) => inl printed
  | inr e => inr e
  end.

(** An environment given by a list of settings. *)
Fixpoint env_of (settings : list (string * string)) : environ :=
  fun k =>
    match settings with
    | [] => None
    | (k', v) :: rest => if String.eqb k k' then Some v else env_of rest k
    end.

Definition example_env (password : string) : environ :=
  env_of [("GROQ_API_KEY", "gsk_test"); ("DB_HOST", "localhost");
          ("DB_PORT", "3306"); ("DB_USER", "pmo");
          ("DB_PASSWORD", password); ("DB_NAME_CR", "cr");
          ("DB_NAME_NRKINDEX_TRN", "nrkindex_trn")].

End Startup.

(** * Properties *)

(** ** Strings *)

Module StrFacts.

Lemma append_assoc (a b c : string) : (a ++ b) ++ c = a ++ (b ++ c).
Proof. induction a as [|x a IH]; simpl; [reflexivity | now rewrite IH]. Qed.

Lemma append_nil_r (a : string) : a ++ "" = a.
Proof. induction a as [|x a IH]; simpl; [reflexivity | now rewrite IH]. Qed.

Lemma prefix_iff (p s : string) :
  String.prefix p s = true <-> exists r, s = p ++ r.
Proof.
  revert s; induction p as [|a p IH]; intros s; simpl.
  - destruct s; simpl; split; intros _; eauto.
  - destruct s as [|b s]; simpl.
    + split; [discriminate | intros [r Hr]; discriminate].
    + destruct (ascii_dec a b) as [->|Hne].
      * rewrite IH. split; intros [r Hr]; exists r; [now subst | now injection Hr].
      * split; [discriminate | intros [r Hr]; injection Hr; congruence].
Qed.

Lemma contains_iff (needle hay : string) :
  contains needle hay = true <-> exists l r, hay = l ++ needle ++ r.
Proof.
  induction hay as [|c hay IH].
  - cbn [contains]. rewrite prefix_iff. split.
    + intros [r Hr]. exists "", r. exact Hr.
    + intros [l [r Hr]]. destruct l; [|discriminate]. exists r. exact Hr.
  - cbn [contains]. rewrite orb_true_iff, prefix_iff, IH. split.
    + intros [[r Hr]|[l [r Hr]]].
      * exists "", r. exact Hr.
      * exists (String c l), r. simpl. now rewrite Hr.
    + intros [l [r Hr]]. destruct l as [|x l]; simpl in Hr.
      * left. exists r. exact Hr.
      * right. injection Hr as _ Hr. eauto.
Qed.

Lemma contains_trans (a b c : string) :
  contains a b = true -> contains b c = true -> contains a c = true.
Proof.
  rewrite !contains_iff. intros [l1 [r1 ->]] [l2 [r2 ->]].
  exists (l2 ++ l1), (r1 ++ r2). now rewrite !append_assoc.
Qed.

Lemma upper_app (a b : string) : upper (a ++ b) = upper a ++ upper b.
Proof. induction a as [|x a IH]; simpl; [reflexivity | now rewrite IH]. Qed.

Lemma lstrip_keeps (l : string) (c : ascii) (r : string) :
  is_space c = false -> exists l', lstrip (l ++ String c r) = l' ++ String c r.
Proof.
  intros Hc. induction l as [|x l IH]; simpl.
  - rewrite Hc. now exists "".
  - destruct (is_space x); [exact IH | now exists (String x l)].
Qed.

Lemma rstrip_keeps (l : string) (c : ascii) (r : string) :
  is_space c = false -> rstrip (l ++ String c r) = l ++ String c (rstrip r).
Proof.
  intros Hc. induction l as [|x l IH].
  - simpl. destruct (rstrip r); [now rewrite Hc | reflexivity].
  - change (rstrip (String x l ++ String c r))
      with (match rstrip (l ++ String c r) with
            | "" => if is_space x then "" else String x ""
            | r' => String x r'
            end).
    rewrite IH. destruct l; reflexivity.
Qed.

Lemma last_char_split (s : string) (d : ascii) :
  last_char s = Some d -> exists s0, s = s0 ++ String d "".
Proof.
  induction s as [|c s IH]; [discriminate|].
  destruct s as [|c' s].
  - simpl. intros [= ->]. now exists "".
  - intros H. destruct (IH H) as [s0 Hs0]. exists (String c s0).
    simpl. now rewrite <- Hs0.
Qed.

Lemma strip_keeps_infix (k : string) :
  solid_edges k = true ->
  forall l r, exists l' r', strip (l ++ k ++ r) = l' ++ k ++ r'.
Proof.
  unfold solid_edges. destruct k as [|c k1] eqn:Ek; [discriminate|].
  rewrite <- Ek. destruct (last_char k) as [d|] eqn:Hlast; [|discriminate].
  rewrite andb_true_iff, !negb_true_iff. intros [Hc Hd] l r.
  destruct (last_char_split k d Hlast) as [k0 Hk0].
  unfold strip.
  destruct (lstrip_keeps l c (k1 ++ r) Hc) as [l' Hl'].
  change (String c (k1 ++ r)) with (String c k1 ++ r) in Hl'.
  rewrite <- Ek in Hl'. rewrite Hl'.
  exists l', (rstrip r).
  rewrite Hk0 at 1. rewrite append_assoc. simpl.
  rewrite <- append_assoc, rstrip_keeps by exact Hd.
  rewrite Hk0, !append_assoc. reflexivity.
Qed.

Lemma substring_split (i : nat) (s : string) :
  i <= String.length s ->
  substring 0 i s ++ substring i (String.length s - i) s = s.
Proof.
  revert s; induction i as [|i IH]; intros s Hi.
  - simpl. rewrite Nat.sub_0_r. clear Hi.
    induction s as [|c s IHs]; simpl; [reflexivity|].
    destruct s; simpl in *; congruence.
  - destruct s as [|c s]; simpl in *; [lia|].
    rewrite IH by lia. reflexivity.
Qed.

End StrFacts.

(** ** The statement checks *)

Module ValidatorFacts.
Import StrFacts.

Lemma validate_query_accepts (s : string) :
  validate_query s = None <->
  shape_ok (upper (strip s)) = true
  /\ has_dangerous_keyword (upper (strip s)) = false.
Proof.
  unfold validate_query.
  destruct (shape_ok (upper (strip s))); simpl.
  - destruct (has_dangerous_keyword (upper (strip s))); split;
      try discriminate; intuition congruence.
  - split; [discriminate | intros [H _]; discriminate].
Qed.

Lemma validate_query_cases (s : string) :
  validate_query s = None
  \/ validate_query s = Some (shape_message s)
  \/ validate_query s = Some (keyword_message s).
Proof.
  unfold validate_query.
  destruct (shape_ok _); simpl; auto.
  destruct (has_dangerous_keyword _); auto.
Qed.

Lemma keyword_found (k n : string) :
  In k dangerous_keywords -> contains k n = true ->
  has_dangerous_keyword n = true.
Proof.
  intros Hin Hk. unfold has_dangerous_keyword.
  apply existsb_exists. now exists k.
Qed.

Lemma keywords_solid :
  forall k, In k dangerous_keywords -> solid_edges k = true /\ upper k = k.
Proof.
  assert (H : forallb (fun k => solid_edges k && String.eqb (upper k) k)
                dangerous_keywords = true) by (vm_compute; reflexivity).
  rewrite forallb_forall in H. intros k Hk.
  specialize (H k Hk). apply andb_true_iff in H as [H1 H2].
  now apply String.eqb_eq in H2.
Qed.

(** Any text around a denylisted keyword is refused before execution. *)
Lemma keyword_anywhere_rejected (k l r : string) :
  In k dangerous_keywords -> validate_query (l ++ k ++ r) <> None.
Proof.
  intros Hin Hacc. apply validate_query_accepts in Hacc as [_ Hno].
  destruct (keywords_solid k Hin) as [Hedges Hup].
  destruct (strip_keeps_infix k Hedges l r) as [l' [r' Hs]].
  rewrite Hs, !upper_app, Hup in Hno.
  rewrite (keyword_found k) in Hno; [discriminate | exact Hin |].
  apply contains_iff. eauto.
Qed.

(** Each required column name occurs in the column list that the check
    before execution looks for. *)
Lemma columns_in_pattern :
  forall col, In col expected_columns ->
    contains col expected_columns_pattern = true.
Proof.
  apply forallb_forall. vm_compute. reflexivity.
Qed.

Lemma shape_ok_post_draft (n : string) :
  shape_ok n = true ->
  startswith n table_prefix = true
  /\ forallb (fun col => contains col n) expected_columns = true.
Proof.
  unfold shape_ok. rewrite !andb_true_iff. intros [[Hp Hc] _]. split.
  - unfold startswith in *. apply prefix_iff in Hp as [r ->].
    apply prefix_iff. exists (" (" ++ r). reflexivity.
  - apply forallb_forall. intros col Hcol.
    eapply contains_trans; [apply columns_in_pattern, Hcol | exact Hc].
Qed.

(** C2, as stated, fails: this statement, a possible stripped reply of the
    service, passes the check made right after drafting and is refused by
    the check made before execution. *)
Lemma checks_differ :
  strip trailing_drop_statement = trailing_drop_statement
  /\ post_draft_check trailing_drop_statement = true
  /\ pre_exec_check trailing_drop_statement = false
  /\ ~ (forall s, post_draft_check s = pre_exec_check s).
Proof.
  assert (H1 : post_draft_check trailing_drop_statement = true)
    by (vm_compute; reflexivity).
  assert (H2 : pre_exec_check trailing_drop_statement = false)
    by (vm_compute; reflexivity).
  split; [vm_compute; reflexivity|].
  split; [exact H1|]. split; [exact H2|].
  intros H. specialize (H trailing_drop_statement). congruence.
Qed.

(** C2, amended: the check before execution is the stricter one.  Every
    statement it accepts is, once stripped of surrounding white space as a
    drafted reply is, also accepted by the check made right after drafting;
    on a statement that is already stripped both checks read the same
    text. *)
Theorem pre_exec_implies_post_draft (s : string) :
  pre_exec_check s = true ->
  post_draft_check (strip s) = true
  /\ (strip s = s -> post_draft_check s = true).
Proof.
  unfold pre_exec_check. intros H.
  destruct (validate_query s) eqn:Hv; [discriminate|].
  apply validate_query_accepts in Hv as [Hshape _].
  apply shape_ok_post_draft in Hshape as [Hp Hc].
  assert (Hpost : post_draft_check (strip s) = true).
  { unfold post_draft_check. cbv zeta. now rewrite Hp, Hc. }
  split; [exact Hpost | intros Hs; now rewrite Hs in Hpost].
Qed.

Lemma pre_exec_implies_post_draft_witness :
  pre_exec_check example_statement = true
  /\ post_draft_check (strip example_statement) = true
  /\ (strip example_statement = example_statement ->
      post_draft_check example_statement = true).
Proof.
  split; [vm_compute; reflexivity|].
  apply (pre_exec_implies_post_draft example_statement).
  vm_compute. reflexivity.
Defined.

(** [inject] splits the statement at the position and puts the keyword in
    between. *)
Lemma inject_inserts (i : nat) (k s : string) :
  i <= String.length s ->
  exists l r, s = l ++ r /\ String.length l = i /\ inject i k s = l ++ k ++ r.
Proof.
  intros Hi. exists (substring 0 i s), (substring i (String.length s - i) s).
  split; [symmetry; now apply substring_split|]. split; [|reflexivity].
  revert s Hi. induction i as [|i IH]; intros s Hi.
  - destruct s; reflexivity.
  - destruct s as [|c s]; simpl in *; [lia|]. rewrite IH; [reflexivity | lia].
Qed.

(** C5: the check before execution accepts the example statement, and
    refuses it once any denylisted keyword is put in at any position. *)
Theorem example_accepted_injection_rejected (i : nat) (k : string) :
  In k dangerous_keywords ->
  validate_query example_statement = None
  /\ pre_exec_check example_statement = true
  /\ (exists msg, validate_query (inject i k example_statement) = Some msg)
  /\ pre_exec_check (inject i k example_statement) = false.
Proof.
  intros Hin.
  assert (Hrej : validate_query (inject i k example_statement) <> None)
    by (unfold inject; now apply keyword_anywhere_rejected).
  split; [vm_compute; reflexivity|].
  split; [vm_compute; reflexivity|].
  unfold pre_exec_check.
  destruct (validate_query (inject i k example_statement)) as [msg|];
    [eauto | contradiction].
Qed.

Lemma example_accepted_injection_rejected_witness :
  In "DROP" dangerous_keywords
  /\ pre_exec_check example_statement = true
  /\ pre_exec_check (inject 33 "DROP" example_statement) = false.
Proof.
  split; [simpl; tauto|].
  destruct (example_accepted_injection_rejected 33 "DROP") as [_ [H1 [_ H2]]];
    [simpl; tauto|].
  split; assumption.
Defined.

End ValidatorFacts.

(** ** Drafting *)

Module DrafterFacts.
Import Drafter.

Lemma mem_In (x : string) (xs : list string) : mem x xs = true <-> In x xs.
Proof.
  unfold mem. rewrite existsb_exists. split.
  - intros [y [Hy Heq]]. apply String.eqb_eq in Heq. now subst.
  - intros H. exists x. split; [exact H | apply String.eqb_refl].
Qed.

Lemma attendance_type_of_spec (emp_id : string) (present : list string) :
  (In emp_id present -> attendance_type_of emp_id present = "Present")
  /\ (~ In emp_id present -> attendance_type_of emp_id present = "Absent").
Proof.
  unfold attendance_type_of. destruct (mem emp_id present) eqn:E.
  - apply mem_In in E. split; [reflexivity | contradiction].
  - split; [|reflexivity]. intros H. apply mem_In in H. congruence.
Qed.

Section Loop.
Context {service : GenerationService}.
Variables (present : list string) (date time by_id : string).

Lemma draft_loop_ok st ids log stmts st' :
  DraftsOk present date time by_id st ids log stmts st' ->
  forall gen w, svc w = st ->
    draft_loop present date time by_id ids gen w
    = (jsonify (SqlQueries (gen ++ stmts)) 200,
       {| svc := st'; calls := calls w ++ log |}).
Proof.
  induction 1 as [st | st emp_id content st1 ids log stmts st' Hcall Hok _ IH];
    intros gen w Hw.
  - simpl. rewrite !app_nil_r. destruct w; simpl in *; now subst.
  - cbn [draft_loop]. rewrite Hw, Hcall, Hok. cbn [negb].
    rewrite IH by reflexivity. cbn [calls svc].
    now rewrite <- !app_assoc.
Qed.

Lemma draft_loop_fail st pre log stmts st1 emp_k io cause st2 :
  DraftsOk present date time by_id st pre log stmts st1 ->
  DraftFails present date time by_id st1 emp_k io cause st2 ->
  forall post gen w, svc w = st ->
    draft_loop present date time by_id (pre ++ emp_k :: post) gen w
    = (jsonify (ErrorBody (failed_message emp_k cause)) 500,
       {| svc := st2; calls := calls w ++ log ++ [io] |}).
Proof.
  induction 1 as [st | st emp_id content st1' ids log stmts st1 Hcall Hok _ IH];
    intros Hfail post gen w Hw.
  - cbn [app draft_loop]. rewrite Hw.
    destruct Hfail as [st emp_id e st' Hcall | st emp_id content st' Hcall Hbad];
      rewrite Hcall; [reflexivity|]. now rewrite Hbad.
  - cbn [app draft_loop]. rewrite Hw, Hcall, Hok. cbn [negb].
    rewrite (IH Hfail) by reflexivity. cbn [calls svc].
    now rewrite <- !app_assoc.
Qed.

Lemma well_behaved_drafts :
  well_behaved ->
  forall ids st, exists log stmts st',
    DraftsOk present date time by_id st ids log stmts st'.
Proof.
  intros Hwb ids. induction ids as [|emp_id ids IH]; intros st.
  - exists [], [], st. constructor.
  - destruct (Hwb st (request_for present date time by_id emp_id))
      as [content [st1 [Hcall Hok]]].
    destruct (IH st1) as [log [stmts [st' Hrest]]].
    eexists _, _, st'. econstructor; eassumption.
Qed.

Lemma DraftsOk_length st ids log stmts st' :
  DraftsOk present date time by_id st ids log stmts st' ->
  List.length stmts = List.length ids /\ List.length log = List.length ids.
Proof. induction 1; simpl; [auto | destruct IHDraftsOk; auto]. Qed.

Lemma DraftsOk_nth st ids log stmts st' :
  DraftsOk present date time by_id st ids log stmts st' ->
  forall i emp_id, nth_error ids i = Some emp_id ->
    exists content,
      nth_error log i
        = Some {| sent := request_for present date time by_id emp_id;
                  received := inl content |}
      /\ nth_error stmts i = Some (strip content)
      /\ post_draft_check (strip content) = true.
Proof.
  induction 1 as [st | st e content st1 ids log stmts st' Hcall Hok _ IH];
    intros i emp_id Hi.
  - destruct i; discriminate.
  - destruct i as [|i]; simpl in *.
    + injection Hi as ->. eauto.
    + eauto.
Qed.

End Loop.

Section Claims.
Context {service : GenerationService}.

Lemma guard_false_rejects (data : GenRequest) (w : World) :
  all_fields_truthy data = false ->
  generate_attendance_sql data w
  = (jsonify (ErrorBody required_fields_message) 400, w).
Proof. unfold generate_attendance_sql. cbv zeta. now intros ->. Qed.

Lemma guard_true_drafts (data : GenRequest) (w : World) :
  all_fields_truthy data = true ->
  generate_attendance_sql data w
  = draft_loop (get_list (present_employee_ids data))
      (field_text (meeting_date data)) (field_text (meeting_time_str data))
      (field_text (inserted_by_id data))
      (get_list (all_employee_ids data)) [] w.
Proof. unfold generate_attendance_sql. cbv zeta. now intros ->. Qed.

Lemma non_empty_fields_truthy (A P : list string) (time date by_id : string) :
  A <> [] -> P <> [] -> time <> "" -> date <> "" -> by_id <> "" ->
  all_fields_truthy
    {| present_employee_ids := Some P; all_employee_ids := Some A;
       meeting_time_str := Some time; meeting_date := Some date;
       inserted_by_id := Some by_id |} = true.
Proof.
  intros HA HP Ht Hd Hb.
  destruct A; [contradiction|]. destruct P; [contradiction|].
  destruct time; [contradiction|]. destruct date; [contradiction|].
  destruct by_id; [contradiction|]. reflexivity.
Qed.


(** C8: a request in which a required field is missing gets the 400
    answer, and the world is as before: no call reaches the service. *)
Theorem missing_field_rejected (data : GenRequest) (w : World) :
  all_employee_ids data = None \/ present_employee_ids data = None
  \/ meeting_time_str data = None \/ meeting_date data = None
  \/ inserted_by_id data = None ->
  generate_attendance_sql data w
  = (jsonify (ErrorBody required_fields_message) 400, w)
  /\ calls (snd (generate_attendance_sql data w)) = calls w.
Proof.
  intros H.
  assert (Hg : all_fields_truthy data = false).
  { unfold all_fields_truthy. cbn [forallb].
    destruct H as [H|[H|[H|[H|H]]]]; rewrite H; cbn;
      rewrite ?andb_false_r; reflexivity. }
  rewrite (guard_false_rejects data w Hg). auto.
Qed.

(** C10: the same 400 answer is given when a field is supplied but empty;
    in particular a request that marks nobody present is refused, and no
    all-Absent batch is drafted. *)
Theorem empty_field_rejected (data : GenRequest) (w : World) :
  present_employee_ids data = Some [] \/ all_employee_ids data = Some []
  \/ meeting_time_str data = Some "" \/ meeting_date data = Some ""
  \/ inserted_by_id data = Some "" ->
  generate_attendance_sql data w
  = (jsonify (ErrorBody required_fields_message) 400, w)
  /\ calls (snd (generate_attendance_sql data w)) = calls w.
Proof.
  intros H.
  assert (Hg : all_fields_truthy data = false).
  { unfold all_fields_truthy. cbn [forallb].
    destruct H as [H|[H|[H|[H|H]]]]; rewrite H; cbn;
      rewrite ?andb_false_r; reflexivity. }
  rewrite (guard_false_rejects data w Hg). auto.
Qed.

(** C9: drafting stops at the first failure.  If the calls for the ids
    before position k succeed and the call for the id at position k raises
    or answers with a text that fails the check, the handler returns 500
    with a message naming that id; the calls made are those for the ids up
    to position k and no other, and no list of statements is returned. *)
Theorem drafting_fails_fast
  (pre post P : list string) (emp_k time date by_id : string) (w : World)
  (log : list Interaction) (stmts : list string) (st1 st2 : svc_state)
  (io : Interaction) (cause : string) :
  P <> [] -> time <> "" -> date <> "" -> by_id <> "" ->
  DraftsOk P date time by_id (svc w) pre log stmts st1 ->
  DraftFails P date time by_id st1 emp_k io cause st2 ->
  let result :=
    generate_attendance_sql
      {| present_employee_ids := Some P;
         all_employee_ids := Some (pre ++ emp_k :: post)%list;
         meeting_time_str := Some time; meeting_date := Some date;
         inserted_by_id := Some by_id |} w in
  result
  = (jsonify (ErrorBody ("Failed to generate SQL query for employee "
                         ++ emp_k ++ ": " ++ cause)) 500,
     {| svc := st2; calls := calls w ++ log ++ [io] |})
  /\ List.length (log ++ [io])%list = S (List.length pre)
  /\ sent io = request_for P date time by_id emp_k
  /\ (forall stmts', body (fst result) <> SqlQueries stmts').
Proof.
  intros HP Ht Hd Hb Hok Hfail result.
  assert (Hres : result
    = (jsonify (ErrorBody (failed_message emp_k cause)) 500,
       {| svc := st2; calls := calls w ++ log ++ [io] |})).
  { unfold result. rewrite guard_true_drafts.
    - cbn [get_list field_text present_employee_ids all_employee_ids
           meeting_time_str meeting_date inserted_by_id].
      now rewrite (draft_loop_fail _ _ _ _ _ _ _ _ _ _ _ _ _ Hok Hfail).
    - apply non_empty_fields_truthy; try assumption.
      destruct pre; discriminate. }
  split; [exact Hres|]. split; [|split].
  - rewrite length_app. simpl.
    destruct (DraftsOk_length _ _ _ _ _ _ _ _ _ Hok) as [_ ->]. lia.
  - destruct Hfail; reflexivity.
  - intros stmts'. rewrite Hres. discriminate.
Qed.

End Claims.

Lemma example_service_well_behaved : well_behaved (service := example_service).
Proof.
  intros st req. cbn [completions_create example_service].
  eexists _, _. split; [reflexivity|].
  destruct (contains _ _); vm_compute; reflexivity.
Qed.



Lemma missing_field_rejected_witness :
  let data := {| present_employee_ids := Some ["1483"];
                 all_employee_ids := Some ["1483"; "1500"];
                 meeting_time_str := None;
                 meeting_date := Some "2025-06-05";
                 inserted_by_id := Some "1483" |} in
  let w := (example_world 7) in
  generate_attendance_sql (service := example_service) data w
  = (jsonify (ErrorBody required_fields_message) 400, w)
  /\ calls (snd (generate_attendance_sql (service := example_service) data w))
     = calls w.
Proof.
  cbv zeta. apply (missing_field_rejected (service := example_service)).
  right. right. left. reflexivity.
Defined.

Lemma empty_field_rejected_witness :
  let data := {| present_employee_ids := Some [];
                 all_employee_ids := Some ["1483"; "1500"];
                 meeting_time_str := Some "09:00:00";
                 meeting_date := Some "2025-06-05";
                 inserted_by_id := Some "1483" |} in
  let w := (example_world 7) in
  generate_attendance_sql (service := example_service) data w
  = (jsonify (ErrorBody required_fields_message) 400, w)
  /\ calls (snd (generate_attendance_sql (service := example_service) data w))
     = calls w.
Proof.
  cbv zeta. apply (empty_field_rejected (service := example_service)).
  left. reflexivity.
Defined.

Lemma drafting_fails_fast_witness :
  let w := scripted_world [inl example_statement; inl not_an_insert;
                            inl example_statement] in
  let result :=
    generate_attendance_sql (service := scripted_service)
      {| present_employee_ids := Some ["1483"];
         all_employee_ids := Some ["1483"; "1500"; "1600"];
         meeting_time_str := Some "09:00:00";
         meeting_date := Some "2025-06-05";
         inserted_by_id := Some "1483" |} w in
  fst result
  = jsonify (ErrorBody
      ("Failed to generate SQL query for employee 1500: "
       ++ invalid_draft_message not_an_insert)) 500
  /\ List.length (calls (snd result)) = 2.
Proof.
  cbv zeta.
  destruct (drafting_fails_fast (service := scripted_service)
              ["1483"] ["1600"] ["1483"] "1500" "09:00:00" "2025-06-05" "1483"
              (scripted_world [inl example_statement; inl not_an_insert;
                               inl example_statement])
              [{| sent := request_for ["1483"] "2025-06-05" "09:00:00" "1483" "1483";
                  received := inl example_statement |}]
              [strip example_statement]
              [inl not_an_insert; inl example_statement]
              [inl example_statement]
              {| sent := request_for ["1483"] "2025-06-05" "09:00:00" "1483" "1500";
                 received := inl not_an_insert |}
              (invalid_draft_message (strip not_an_insert)))
    as [Hrun _]; try discriminate.
  - apply (DraftsOk_cons (service := scripted_service)
             ["1483"] "2025-06-05" "09:00:00" "1483"
             [inl example_statement; inl not_an_insert; inl example_statement]
             "1483" example_statement
             [inl not_an_insert; inl example_statement]).
    + reflexivity.
    + vm_compute. reflexivity.
    + constructor.
  - apply (DraftFails_check (service := scripted_service)
             ["1483"] "2025-06-05" "09:00:00" "1483"
             [inl not_an_insert; inl example_statement]
             "1500" not_an_insert [inl example_statement]).
    + reflexivity.
    + vm_compute. reflexivity.
  - cbn [app] in Hrun. rewrite Hrun. split; reflexivity.
Defined.

End DrafterFacts.

(** ** Execution of a batch *)

Module ExecutorFacts.
Import Executor ValidatorFacts.

Section Loop.
Context {db : AttendanceStore}.

Lemma run_queries_Runs st batch st' :
  Runs st batch st' ->
  forall evs, run_queries batch st evs = (inl st', evs ++ map EvExecute batch)%list.
Proof.
  induction 1 as [st | st st1 st' q rest Hv He _ IH]; intros evs.
  - simpl. now rewrite app_nil_r.
  - cbn [run_queries map]. rewrite Hv, He, IH, <- app_assoc. reflexivity.
Qed.

Lemma run_queries_first_failure batch :
  forall st k cause evs,
    first_failure batch st = Some (k, cause) ->
    exists executed,
      run_queries batch st evs = (inr cause, evs ++ map EvExecute executed)%list.
Proof.
  induction batch as [|q rest IH]; intros st k cause evs H; [discriminate|].
  cbn [first_failure run_queries] in *.
  destruct (validate_query q) as [msg|].
  - injection H as _ Hc. subst cause. exists []. simpl. now rewrite app_nil_r.
  - destruct (db_execute st q) as [st1|e].
    + destruct (first_failure rest st1) as [[k' cause']|] eqn:Hf; [|discriminate].
      injection H as _ Hc. subst cause.
      destruct (IH st1 k' cause' (evs ++ [EvExecute q])%list Hf) as [ex Hex].
      exists (q :: ex). rewrite Hex, <- app_assoc. reflexivity.
    + injection H as _ Hc. subst cause. exists [q]. reflexivity.
Qed.

Lemma Fails_first_failure st batch :
  Fails st batch <-> exists k cause, first_failure batch st = Some (k, cause).
Proof.
  split.
  - induction 1 as [st q rest msg Hv | st q rest e Hv He
                   | st st1 q rest Hv He _ [k [cause IH]]];
      cbn [first_failure]; rewrite Hv; eauto; rewrite He; eauto.
    rewrite IH. eauto.
  - revert st. induction batch as [|q rest IH]; intros st [k [cause H]];
      [discriminate|]. cbn [first_failure] in H.
    destruct (validate_query q) as [msg|] eqn:Hv; [eapply Fails_check; eauto|].
    destruct (db_execute st q) as [st1|e] eqn:He;
      [|eapply Fails_execute; eauto].
    destruct (first_failure rest st1) as [[k' cause']|] eqn:Hf; [|discriminate].
    eapply Fails_later; eauto.
Qed.

Lemma Runs_first_failure st batch :
  (exists st', Runs st batch st') <-> first_failure batch st = None.
Proof.
  split.
  - intros [st' H]. induction H as [st | st st1 st' q rest Hv He _ IH];
      [reflexivity|]. cbn [first_failure]. now rewrite Hv, He, IH.
  - revert st. induction batch as [|q rest IH]; intros st H.
    + exists st. constructor.
    + cbn [first_failure] in H.
      destruct (validate_query q) as [msg|] eqn:Hv; [discriminate|].
      destruct (db_execute st q) as [st1|e] eqn:He; [|discriminate].
      destruct (first_failure rest st1) as [[k' cause']|] eqn:Hf; [discriminate|].
      destruct (IH st1 Hf) as [st' Hr]. exists st'. econstructor; eauto.
Qed.

(** A batch either runs through or has a first failing statement. *)
Lemma Runs_or_Fails st batch : (exists st', Runs st batch st') \/ Fails st batch.
Proof.
  destruct (first_failure batch st) as [[k cause]|] eqn:H.
  - right. apply Fails_first_failure. eauto.
  - left. now apply Runs_first_failure.
Qed.

(** A statement that fails its check makes the batch fail, wherever it
    stands. *)
Lemma invalid_statement_Fails batch :
  forall st q msg,
    In q batch -> validate_query q = Some msg -> Fails st batch.
Proof.
  induction batch as [|a rest IH]; intros st q msg Hin Hq; [contradiction|].
  destruct (validate_query a) as [m|] eqn:Hv; [eapply Fails_check; eauto|].
  destruct (db_execute st a) as [st1|e] eqn:He; [|eapply Fails_execute; eauto].
  destruct Hin as [->|Hin]; [congruence|].
  eapply Fails_later; eauto.
Qed.

Lemma first_failure_cause batch :
  forall st k cause,
    first_failure batch st = Some (k, cause) ->
    exists q, nth_error batch k = Some q
      /\ (cause = shape_message q \/ cause = keyword_message q
          \/ (validate_query q = None /\ exists st1, db_execute st1 q = inr cause)).
Proof.
  induction batch as [|q rest IH]; intros st k cause H; [discriminate|].
  cbn [first_failure] in H.
  destruct (validate_query_cases q) as [Hv|[Hv|Hv]]; rewrite Hv in H.
  - destruct (db_execute st q) as [st1|e] eqn:He.
    + destruct (first_failure rest st1) as [[k' cause']|] eqn:Hf; [|discriminate].
      injection H as Hk Hc. subst k cause. exact (IH st1 k' cause' Hf).
    + injection H as Hk Hc. subst k cause. exists q.
      split; [reflexivity|]. eauto.
  - injection H as Hk Hc. subst k cause. exists q. auto.
  - injection H as Hk Hc. subst k cause. exists q. auto.
Qed.

End Loop.

Section Claims.
Context {db : AttendanceStore}.

Lemma execute_non_empty (batch : list string) (w : World) :
  batch <> [] -> reachable w = true ->
  execute_generated_sql (Some batch) w
  = match run_queries batch (committed w)
            (events w ++ [EvConnect DB_NAME_NRKINDEX_TRN true])%list with
    | (inl working, evs') =>
        (jsonify (Message (success_message (List.length batch))) 200,
         {| committed := working; reachable := true;
            events := evs' ++ [EvCommit; EvClose] |})
    | (inr e, evs') =>
        (jsonify (ErrorBody (execution_error_message e)) 500,
         {| committed := committed w; reachable := true;
            events := evs' ++ [EvRollback; EvClose] |})
    end.
Proof.
  intros Hb Hr. unfold execute_generated_sql. cbv zeta.
  destruct batch; [contradiction|]. cbn [truthy_list negb]. rewrite Hr.
  reflexivity.
Qed.

Lemma execute_unreachable (batch : list string) (w : World) :
  batch <> [] -> reachable w = false ->
  execute_generated_sql (Some batch) w
  = (jsonify (ErrorBody (connect_failed_message DB_NAME_NRKINDEX_TRN)) 500,
     {| committed := committed w; reachable := false;
        events := events w ++ [EvConnect DB_NAME_NRKINDEX_TRN false] |}).
Proof.
  intros Hb Hr. unfold execute_generated_sql. cbv zeta.
  destruct batch; [contradiction|]. cbn [truthy_list negb]. rewrite Hr.
  reflexivity.
Qed.

(** C3: a non-empty batch is all-or-nothing.  A statement that fails its
    check makes the batch fail wherever it stands.  If some statement fails
    its check or its execution, the handler answers 500 and the committed
    state of the store is what it was; the statements executed before the
    failure are followed by a rollback and never by a commit.  If every
    statement passes and executes, the handler answers 200 and the
    committed state is the one reached by executing the whole batch in
    order, made durable by the single commit that follows the last
    statement. *)
Theorem batch_is_atomic (batch : list string) (w : World) :
  batch <> [] ->
  let result := execute_generated_sql (Some batch) w in
  ((exists q msg, In q batch /\ validate_query q = Some msg) ->
     Fails (committed w) batch)
  /\ (Fails (committed w) batch ->
     status (fst result) = 500
     /\ committed (snd result) = committed w
     /\ exists executed,
          events (snd result)
          = (events w
             ++ (if reachable w
                 then EvConnect DB_NAME_NRKINDEX_TRN true
                        :: map EvExecute executed ++ [EvRollback; EvClose]
                 else [EvConnect DB_NAME_NRKINDEX_TRN false]))%list)
  /\ (forall st', reachable w = true -> Runs (committed w) batch st' ->
       fst result = jsonify (Message (success_message (List.length batch))) 200
       /\ committed (snd result) = st'
       /\ events (snd result)
          = (events w
             ++ EvConnect DB_NAME_NRKINDEX_TRN true
                  :: map EvExecute batch ++ [EvCommit; EvClose])%list).
Proof.
  intros Hb result. split; [|split].
  - intros [q [msg [Hin Hq]]]. eapply invalid_statement_Fails; eauto.
  - intros Hfail. apply Fails_first_failure in Hfail as [k [cause Hf]].
    destruct (reachable w) eqn:Hr.
    + destruct (run_queries_first_failure batch _ k cause
                  (events w ++ [EvConnect DB_NAME_NRKINDEX_TRN true])%list Hf)
        as [executed Hrun].
      unfold result. rewrite execute_non_empty, Hrun by assumption.
      cbn [fst snd status jsonify committed events].
      split; [reflexivity|]. split; [reflexivity|]. exists executed.
      now rewrite <- !app_assoc.
    + unfold result. rewrite execute_unreachable by assumption.
      cbn [fst snd status jsonify committed events].
      split; [reflexivity|]. split; [reflexivity|]. exists []. reflexivity.
  - intros st' Hr Hruns. unfold result.
    rewrite execute_non_empty by assumption.
    rewrite (run_queries_Runs _ _ _ Hruns).
    cbn [fst snd status jsonify committed events].
    split; [reflexivity|]. split; [reflexivity|].
    now rewrite <- !app_assoc.
Qed.

(** C4: when [sql_queries] is empty or absent the handler answers 400 and
    the world is as before: no connection was asked for, no statement was
    executed, the store holds what it held. *)
Theorem empty_batch_rejected (field : option (list string)) (w : World) :
  field = None \/ field = Some [] ->
  let result := execute_generated_sql field w in
  result = (jsonify (ErrorBody no_queries_message) 400, w)
  /\ events (snd result) = events w
  /\ committed (snd result) = committed w.
Proof.
  intros [-> | ->]; cbv zeta; repeat split.
Qed.

(** C6, amended: when the statement at position k is the first of the
    batch to fail, the handler answers 500 with the cause of that failure
    put into a fixed sentence: for a failed check a message that ends with
    the text of the failing statement, for a failed execution the error
    text of the store.  The answer is determined by the cause alone; the
    position k is not part of it. *)
Theorem failure_reports_cause (batch : list string) (w : World)
  (k : nat) (cause : string) :
  reachable w = true ->
  first_failure batch (committed w) = Some (k, cause) ->
  fst (execute_generated_sql (Some batch) w)
  = jsonify (ErrorBody ("Error executing queries: " ++ cause
                        ++ ". Please check the generated SQL syntax and data."))
            500
  /\ exists q, nth_error batch k = Some q
       /\ (cause = shape_message q \/ cause = keyword_message q
           \/ (validate_query q = None
               /\ exists st, db_execute st q = inr cause)).
Proof.
  intros Hr Hf. split.
  - assert (Hb : batch <> []) by (destruct batch; [discriminate Hf | discriminate]).
    destruct (run_queries_first_failure batch _ k cause
                (events w ++ [EvConnect DB_NAME_NRKINDEX_TRN true])%list Hf)
      as [executed Hrun].
    rewrite execute_non_empty, Hrun by assumption. reflexivity.
  - exact (first_failure_cause batch _ k cause Hf).
Qed.

End Claims.

Lemma batch_is_atomic_witness :
  let batch := [example_statement; absent_statement; example_statement] in
  let result := execute_generated_sql (Some batch) (list_world []) in
  status (fst result) = 500 /\ committed (snd result) = [].
Proof.
  cbv zeta.
  destruct (batch_is_atomic (db := list_store)
              [example_statement; absent_statement; example_statement]
              (list_world [])) as [_ [Hfail _]]; [discriminate|].
  destruct Hfail as [H1 [H2 _]]; [|split; assumption].
  apply (Fails_later (db := list_store)) with (st1 := [example_statement]);
    [vm_compute; reflexivity | vm_compute; reflexivity |].
  apply (Fails_later (db := list_store))
    with (st1 := [example_statement; absent_statement]);
    [vm_compute; reflexivity | vm_compute; reflexivity |].
  apply (Fails_execute (db := list_store))
    with (e := "1062 (23000): Duplicate entry");
    vm_compute; reflexivity.
Defined.

Lemma empty_batch_rejected_witness :
  let result := execute_generated_sql (Some []) (list_world [absent_statement]) in
  result = (jsonify (ErrorBody no_queries_message) 400,
            list_world [absent_statement])
  /\ events (snd result) = []
  /\ committed (snd result) = [absent_statement].
Proof.
  cbv zeta.
  apply (empty_batch_rejected (db := list_store) (Some [])
           (list_world [absent_statement])).
  right. reflexivity.
Defined.

Lemma failure_reports_cause_witness :
  fst (execute_generated_sql (Some [example_statement; not_an_insert])
         (list_world []))
  = jsonify (ErrorBody ("Error executing queries: "
                        ++ shape_message not_an_insert
                        ++ ". Please check the generated SQL syntax and data."))
            500.
Proof.
  apply (failure_reports_cause (db := list_store)
           [example_statement; not_an_insert] (list_world []) 1
           (shape_message not_an_insert)).
  - reflexivity.
  - vm_compute. reflexivity.
Defined.

(** C6, as stated, fails: no reading of the answer, 0-based, 1-based or
    other, gives the position of the first failing statement.  The same
    faulty statement placed first or second in a batch yields the same
    answer. *)
Lemma error_does_not_name_index :
  ~ exists index_of : Response -> nat,
      forall (batch : list string) (k : nat) (cause : string),
        first_failure (db := list_store) batch [] = Some (k, cause) ->
        index_of (fst (execute_generated_sql (Some batch) (list_world []))) = k.
Proof.
  intros [index_of H].
  assert (H0 := H [not_an_insert] 0 (shape_message not_an_insert)).
  assert (H1 := H [example_statement; not_an_insert] 1
                  (shape_message not_an_insert)).
  assert (E : fst (execute_generated_sql (Some [not_an_insert]) (list_world []))
            = fst (execute_generated_sql
                     (Some [example_statement; not_an_insert]) (list_world [])))
    by (vm_compute; reflexivity).
  rewrite E in H0. rewrite H0 in H1; [| vm_compute; reflexivity].
  specialize (H1 ltac:(vm_compute; reflexivity)). discriminate.
Qed.

End ExecutorFacts.

(** ** The directory listing *)

Module DirectoryFacts.
Import Directory.

Section Sorting.
Context {dir : DirectoryStore}.
Hypothesis name_leb_total :
  forall a b : string, name_leb a b = true \/ name_leb b a = true.

Lemma insert_by_name_perm (e : Employee) (rows : list Employee) :
  Permutation (insert_by_name e rows) (e :: rows).
Proof.
  induction rows as [|r rows IH]; simpl; [reflexivity|].
  destruct (name_leb (name e) (name r)); [reflexivity|].
  rewrite IH. apply perm_swap.
Qed.

Lemma order_by_name_perm (rows : list Employee) :
  Permutation (order_by_name rows) rows.
Proof.
  induction rows as [|r rows IH]; simpl; [reflexivity|].
  rewrite insert_by_name_perm. now constructor.
Qed.

Lemma insert_by_name_HdRel (a e : Employee) (rows : list Employee) :
  le_name a e -> HdRel le_name a rows -> HdRel le_name a (insert_by_name e rows).
Proof.
  intros Hae Hhd. destruct rows as [|r rows]; simpl; [now constructor|].
  destruct (name_leb (name e) (name r)); constructor;
    [exact Hae | now inversion Hhd].
Qed.

Lemma insert_by_name_sorted (e : Employee) (rows : list Employee) :
  Sorted le_name rows -> Sorted le_name (insert_by_name e rows).
Proof.
  induction 1 as [|r rows Hs IH Hhd]; simpl.
  - repeat constructor.
  - destruct (name_leb (name e) (name r)) eqn:E.
    + constructor; [now constructor | now constructor].
    + constructor; [exact IH|].
      apply insert_by_name_HdRel; [|exact Hhd].
      destruct (name_leb_total (name e) (name r)) as [H|H];
        [congruence | exact H].
Qed.

Lemma order_by_name_sorted (rows : list Employee) :
  Sorted le_name (order_by_name rows).
Proof.
  induction rows as [|r rows IH]; simpl;
    [constructor | now apply insert_by_name_sorted].
Qed.


End Sorting.


End DirectoryFacts.

(** * Further properties of the handlers *)

(** ** Case and white space in the checks *)

Module NormalFacts.
Import StrFacts ValidatorFacts.

Lemma is_space_upper_char (c : ascii) : is_space (upper_char c) = is_space c.
Proof.
  destruct c as [b0 b1 b2 b3 b4 b5 b6 b7];
    destruct b0, b1, b2, b3, b4, b5, b6, b7; reflexivity.
Qed.

Lemma upper_char_idem (c : ascii) : upper_char (upper_char c) = upper_char c.
Proof.
  destruct c as [b0 b1 b2 b3 b4 b5 b6 b7];
    destruct b0, b1, b2, b3, b4, b5, b6, b7; reflexivity.
Qed.

Lemma upper_idem (s : string) : upper (upper s) = upper s.
Proof.
  induction s as [|c s IH]; simpl; [reflexivity|].
  now rewrite upper_char_idem, IH.
Qed.

Lemma lstrip_upper (s : string) : lstrip (upper s) = upper (lstrip s).
Proof.
  induction s as [|c s IH]; simpl; [reflexivity|].
  rewrite is_space_upper_char. destruct (is_space c); [exact IH | reflexivity].
Qed.

Lemma rstrip_upper (s : string) : rstrip (upper s) = upper (rstrip s).
Proof.
  induction s as [|c s IH]; [reflexivity|].
  cbn [upper rstrip]. rewrite IH.
  destruct (rstrip s); cbn [upper]; [|reflexivity].
  rewrite is_space_upper_char. destruct (is_space c); reflexivity.
Qed.

Lemma strip_upper (s : string) : strip (upper s) = upper (strip s).
Proof. unfold strip. now rewrite lstrip_upper, rstrip_upper. Qed.

Lemma rstrip_idem (s : string) : rstrip (rstrip s) = rstrip s.
Proof.
  induction s as [|c s IH]; [reflexivity|].
  cbn [rstrip]. destruct (rstrip s) as [|d r'] eqn:E.
  - destruct (is_space c) eqn:Hc; [reflexivity|].
    cbn [rstrip]. now rewrite Hc.
  - cbn [rstrip] in *. now rewrite IH.
Qed.

Lemma lstrip_head (s : string) :
  lstrip s = "" \/ exists c r, lstrip s = String c r /\ is_space c = false.
Proof.
  induction s as [|c s IH]; simpl; [now left|].
  destruct (is_space c) eqn:Hc; [exact IH | right; eauto].
Qed.

Lemma strip_idem (s : string) : strip (strip s) = strip s.
Proof.
  unfold strip. destruct (lstrip_head s) as [E | [c [r [E Hc]]]]; rewrite E.
  - reflexivity.
  - pose proof (rstrip_keeps "" c r Hc) as Hk. cbn [append] in Hk.
    rewrite Hk. cbn [lstrip]. rewrite Hc, <- Hk. apply rstrip_idem.
Qed.

Lemma last_char_upper (s : string) :
  last_char (upper s) = option_map upper_char (last_char s).
Proof.
  induction s as [|c s IH]; [reflexivity|].
  destruct s as [|d s]; [reflexivity|]. exact IH.
Qed.

Lemma solid_edges_upper (k : string) : solid_edges (upper k) = solid_edges k.
Proof.
  destruct k as [|c k]; [reflexivity|].
  change (solid_edges (upper (String c k)))
    with (match last_char (upper (String c k)) with
          | Some d => negb (is_space (upper_char c)) && negb (is_space d)
          | None => false
          end).
  change (solid_edges (String c k))
    with (match last_char (String c k) with
          | Some d => negb (is_space c) && negb (is_space d)
          | None => false
          end).
  rewrite last_char_upper.
  destruct (last_char (String c k)); cbn [option_map]; [|reflexivity].
  now rewrite !is_space_upper_char.
Qed.

(** X1: the denylist does not depend on letter case or position. *)
Theorem keyword_any_case_rejected (k l r : string) :
  In (upper k) dangerous_keywords ->
  pre_exec_check (l ++ k ++ r) = false
  /\ exists msg, validate_query (l ++ k ++ r) = Some msg.
Proof.
  intros Hin.
  assert (Hrej : validate_query (l ++ k ++ r) <> None).
  { intros Hacc. apply validate_query_accepts in Hacc as [_ Hno].
    destruct (keywords_solid _ Hin) as [Hedges _].
    rewrite solid_edges_upper in Hedges.
    destruct (strip_keeps_infix k Hedges l r) as [l' [r' Hs]].
    rewrite Hs, !upper_app in Hno.
    rewrite (keyword_found (upper k)) in Hno; [discriminate | exact Hin |].
    apply contains_iff. eauto. }
  unfold pre_exec_check.
  destruct (validate_query (l ++ k ++ r)) as [msg|]; [eauto | contradiction].
Qed.

Lemma keyword_any_case_rejected_witness :
  pre_exec_check
    ("INSERT INTO PMO_DAILY_ATTENDNACE (EMPLOYEE_ID) VALUES ('" ++ "Drop"
     ++ "');") = false
  /\ exists msg,
       validate_query
         ("INSERT INTO PMO_DAILY_ATTENDNACE (EMPLOYEE_ID) VALUES ('" ++ "Drop"
          ++ "');") = Some msg.
Proof.
  apply (keyword_any_case_rejected "Drop"). vm_compute. tauto.
Defined.

(** X2: both checks read the upper-cased text only, so a statement and its
    upper-cased form are accepted or refused alike. *)
Theorem checks_ignore_case (s : string) :
  pre_exec_check (upper s) = pre_exec_check s
  /\ post_draft_check (upper s) = post_draft_check s.
Proof.
  split.
  - unfold pre_exec_check, validate_query.
    rewrite strip_upper, upper_idem.
    destruct (shape_ok _); cbn [negb]; [|reflexivity].
    destruct (has_dangerous_keyword _); reflexivity.
  - unfold post_draft_check. now rewrite upper_idem.
Qed.

(** X3: the check before execution strips the statement first, so white
    space around a statement does not change the verdict. *)
Theorem pre_exec_ignores_outer_space (s : string) :
  pre_exec_check (strip s) = pre_exec_check s.
Proof.
  unfold pre_exec_check, validate_query. rewrite strip_idem.
  destruct (shape_ok _); cbn [negb]; [|reflexivity].
  destruct (has_dangerous_keyword _); reflexivity.
Qed.

(** X4: a statement in which one of the six column names does not occur,
    in any letter case, is refused by both checks. *)
Theorem missing_column_rejected (s col : string) :
  In col expected_columns ->
  (contains col (upper s) = false -> post_draft_check s = false)
  /\ (contains col (upper (strip s)) = false ->
      validate_query s = Some (shape_message s)).
Proof.
  intros Hcol. split; intros Hmiss.
  - unfold post_draft_check. cbv zeta.
    destruct (forallb _ expected_columns) eqn:Hall;
      [|now rewrite andb_false_r].
    rewrite forallb_forall in Hall. specialize (Hall col Hcol). congruence.
  - unfold validate_query. cbv zeta.
    destruct (shape_ok (upper (strip s))) eqn:Hshape; [|reflexivity].
    apply shape_ok_post_draft in Hshape as [_ Hall].
    rewrite forallb_forall in Hall. specialize (Hall col Hcol). congruence.
Qed.

Lemma missing_column_rejected_witness :
  (contains "ATTENDANCE_TIME"
     (upper "insert into pmo_daily_attendnace (employee_id) values ('1')")
   = false ->
   post_draft_check "insert into pmo_daily_attendnace (employee_id) values ('1')"
   = false)
  /\ (contains "ATTENDANCE_TIME"
        (upper (strip "insert into pmo_daily_attendnace (employee_id) values ('1')"))
      = false ->
      validate_query "insert into pmo_daily_attendnace (employee_id) values ('1')"
      = Some (shape_message
                "insert into pmo_daily_attendnace (employee_id) values ('1')")).
Proof.
  apply (missing_column_rejected
           "insert into pmo_daily_attendnace (employee_id) values ('1')"
           "ATTENDANCE_TIME").
  vm_compute. tauto.
Defined.

(** X5: the check made after drafting looks at the start of the reply and
    at the presence of the column names only: whatever follows an accepted
    reply, the longer reply is accepted too. *)
Theorem post_draft_accepts_continuation (s t : string) :
  post_draft_check s = true -> post_draft_check (s ++ t) = true.
Proof.
  unfold post_draft_check, startswith. cbv zeta.
  rewrite !andb_true_iff, !forallb_forall. intros [Hp Hall]. split.
  - apply prefix_iff in Hp as [r Hr]. apply prefix_iff.
    exists (r ++ upper t). now rewrite upper_app, Hr, append_assoc.
  - intros col Hcol. specialize (Hall col Hcol).
    apply contains_iff in Hall as [l [r Hr]]. apply contains_iff.
    exists l, (r ++ upper t). now rewrite upper_app, Hr, !append_assoc.
Qed.

Lemma post_draft_accepts_continuation_witness :
  post_draft_check (example_statement ++ " DELETE FROM employee;") = true.
Proof.
  apply (post_draft_accepts_continuation example_statement).
  vm_compute. reflexivity.
Defined.

End NormalFacts.

(** ** Drafting, for any service *)

Module DraftingFacts.
Import Drafter DrafterFacts NormalFacts.

Section AnyService.
Context {service : GenerationService}.
Variables (present : list string) (date time by_id : string).

(** The loop either drafts for every id or meets a first failing call. *)
Lemma draft_loop_cases (ids : list string) :
  forall st,
    (exists log stmts st',
        DraftsOk present date time by_id st ids log stmts st')
    \/ (exists pre emp_k post log stmts st1 io cause st2,
           ids = (pre ++ emp_k :: post)%list
           /\ DraftsOk present date time by_id st pre log stmts st1
           /\ DraftFails present date time by_id st1 emp_k io cause st2).
Proof.
  induction ids as [|emp_id ids IH]; intros st.
  - left. exists [], [], st. constructor.
  - destruct (completions_create st
                (request_for present date time by_id emp_id))
      as [[content|e] st1] eqn:Hcall.
    + destruct (post_draft_check (strip content)) eqn:Hchk.
      * destruct (IH st1)
          as [[log [stmts [st' Hok]]]
             |[pre [emp_k [post [log [stmts [st2 [io [cause [st3 [-> [Hok Hf]]]]]]]]]]]].
        -- left. eexists _, _, st'. econstructor; eassumption.
        -- right. exists (emp_id :: pre), emp_k, post.
           eexists _, _, st2, io, cause, st3.
           split; [reflexivity|]. split; [|exact Hf].
           econstructor; eassumption.
      * right. exists [], emp_id, ids, [], [], st.
        eexists _, _, st1. split; [reflexivity|]. split; [constructor|].
        eapply DraftFails_check; eassumption.
    + right. exists [], emp_id, ids, [], [], st.
      eexists _, _, st1. split; [reflexivity|]. split; [constructor|].
      eapply DraftFails_service; eassumption.
Qed.

Lemma DraftsOk_sent st ids log stmts st' :
  DraftsOk present date time by_id st ids log stmts st' ->
  map sent log = map (request_for present date time by_id) ids.
Proof. induction 1; simpl; [reflexivity | now f_equal]. Qed.

Lemma DraftsOk_stmts st ids log stmts st' :
  DraftsOk present date time by_id st ids log stmts st' ->
  Forall (fun s => post_draft_check s = true /\ strip s = s) stmts.
Proof.
  induction 1; constructor; [|assumption].
  split; [assumption | apply strip_idem].
Qed.

Lemma DraftFails_sent st emp_id io cause st' :
  DraftFails present date time by_id st emp_id io cause st' ->
  sent io = request_for present date time by_id emp_id.
Proof. destruct 1; reflexivity. Qed.

End AnyService.

Section Outcomes.
Context {service : GenerationService}.

(** X6: whatever the service does, a drafting request ends in one of three
    ways.  It is refused with 400 and the call record untouched; or it
    answers 200 with one statement per id, each stripped and passing the
    check made after drafting, after one call per id; or it answers 500
    naming the id at some position k of the list, after k+1 calls. *)
Theorem drafting_outcomes (data : GenRequest) (w : World) :
  let A := get_list (all_employee_ids data) in
  let result := generate_attendance_sql data w in
  (all_fields_truthy data = false
   /\ result = (jsonify (ErrorBody required_fields_message) 400, w))
  \/ (all_fields_truthy data = true
      /\ exists stmts,
           fst result = jsonify (SqlQueries stmts) 200
           /\ List.length stmts = List.length A
           /\ Forall (fun s => post_draft_check s = true /\ strip s = s) stmts
           /\ List.length (calls (snd result))
              = List.length (calls w) + List.length A)
  \/ (all_fields_truthy data = true
      /\ exists k emp_id cause,
           nth_error A k = Some emp_id
           /\ fst result
              = jsonify (ErrorBody ("Failed to generate SQL query for employee "
                                    ++ emp_id ++ ": " ++ cause)) 500
           /\ List.length (calls (snd result))
              = List.length (calls w) + S k).
Proof.
  cbv zeta. destruct (all_fields_truthy data) eqn:Hg.
  - right. rewrite (guard_true_drafts data w Hg).
    destruct (draft_loop_cases (get_list (present_employee_ids data))
                (field_text (meeting_date data))
                (field_text (meeting_time_str data))
                (field_text (inserted_by_id data))
                (get_list (all_employee_ids data)) (svc w))
      as [[log [stmts [st' Hok]]]
         |[pre [emp_k [post [log [stmts [st1 [io [cause [st2 [HA [Hok Hf]]]]]]]]]]]].
    + left. split; [reflexivity|]. exists stmts.
      rewrite (draft_loop_ok _ _ _ _ _ _ _ _ _ Hok [] w eq_refl).
      destruct (DraftsOk_length _ _ _ _ _ _ _ _ _ Hok) as [H1 H2].
      cbn [fst snd calls]. split; [reflexivity|]. split; [exact H1|].
      split; [exact (DraftsOk_stmts _ _ _ _ _ _ _ _ _ Hok)|].
      now rewrite length_app, H2.
    + right. split; [reflexivity|]. exists (List.length pre), emp_k, cause.
      rewrite HA.
      rewrite (draft_loop_fail _ _ _ _ _ _ _ _ _ _ _ _ _ Hok Hf post [] w eq_refl).
      destruct (DraftsOk_length _ _ _ _ _ _ _ _ _ Hok) as [_ H2].
      cbn [fst snd calls]. split; [|split; [reflexivity|]].
      * rewrite nth_error_app2 by lia. now rewrite Nat.sub_diag.
      * rewrite !length_app, H2. simpl. lia.
  - left. split; [reflexivity|]. now apply guard_false_rejects.
Qed.

(** X7: the handler never retries and never skips ahead: the calls it adds
    to the record are the requests built for an initial segment of the id
    list, one call per id, in the caller's order. *)
Theorem calls_follow_ids (data : GenRequest) (w : World) :
  let A := get_list (all_employee_ids data) in
  let result := generate_attendance_sql data w in
  exists log,
    calls (snd result) = (calls w ++ log)%list
    /\ List.length log <= List.length A
    /\ map sent log
       = map (request_for (get_list (present_employee_ids data))
                (field_text (meeting_date data))
                (field_text (meeting_time_str data))
                (field_text (inserted_by_id data)))
             (firstn (List.length log) A).
Proof.
  cbv zeta. destruct (all_fields_truthy data) eqn:Hg.
  - rewrite (guard_true_drafts data w Hg).
    destruct (draft_loop_cases (get_list (present_employee_ids data))
                (field_text (meeting_date data))
                (field_text (meeting_time_str data))
                (field_text (inserted_by_id data))
                (get_list (all_employee_ids data)) (svc w))
      as [[log [stmts [st' Hok]]]
         |[pre [emp_k [post [log [stmts [st1 [io [cause [st2 [HA [Hok Hf]]]]]]]]]]]].
    + exists log.
      rewrite (draft_loop_ok _ _ _ _ _ _ _ _ _ Hok [] w eq_refl).
      destruct (DraftsOk_length _ _ _ _ _ _ _ _ _ Hok) as [_ H2].
      cbn [snd calls]. split; [reflexivity|]. split; [lia|].
      rewrite H2, firstn_all. exact (DraftsOk_sent _ _ _ _ _ _ _ _ _ Hok).
    + exists (log ++ [io])%list. rewrite HA.
      rewrite (draft_loop_fail _ _ _ _ _ _ _ _ _ _ _ _ _ Hok Hf post [] w eq_refl).
      destruct (DraftsOk_length _ _ _ _ _ _ _ _ _ Hok) as [_ H2].
      cbn [snd calls]. split; [reflexivity|].
      rewrite !length_app, H2. cbn [List.length]. split; [lia|].
      replace (List.length pre + 1) with (List.length (pre ++ [emp_k])%list)
        by (rewrite length_app; reflexivity).
      replace (pre ++ emp_k :: post)%list with ((pre ++ [emp_k]) ++ post)%list
        by (now rewrite <- app_assoc).
      rewrite firstn_app, firstn_all, Nat.sub_diag, firstn_O, app_nil_r.
      rewrite !map_app. cbn [map].
      rewrite (DraftsOk_sent _ _ _ _ _ _ _ _ _ Hok).
      now rewrite (DraftFails_sent _ _ _ _ _ _ _ _ _ Hf).
  - exists []. rewrite (guard_false_rejects data w Hg).
    cbn [snd List.length map firstn]. rewrite app_nil_r.
    split; [reflexivity|]. split; [lia | reflexivity].
Qed.

Lemma draft_loop_ext (P P' : list string) (date time by_id : string)
  (ids : list string) :
  (forall emp_id, In emp_id ids ->
     request_for P date time by_id emp_id
     = request_for P' date time by_id emp_id) ->
  forall gen w,
    draft_loop P date time by_id ids gen w
    = draft_loop P' date time by_id ids gen w.
Proof.
  induction ids as [|emp_id ids IH]; intros Hreq gen w; [reflexivity|].
  cbn [draft_loop]. rewrite (Hreq emp_id) by now left.
  destruct (completions_create _ _) as [[content|e] st1]; [|reflexivity].
  destruct (post_draft_check (strip content)); cbn [negb]; [|reflexivity].
  apply IH. intros x Hx. apply Hreq. now right.
Qed.

(** X8: the list of present ids matters only through which of the listed
    employees it contains: ids in it that are not in the employee list,
    repetitions and order change nothing in what the handler sends and
    answers. *)
Theorem present_ids_by_membership
  (A P P' : list string) (time date by_id : option string) (w : World) :
  P <> [] -> P' <> [] ->
  (forall emp_id, In emp_id A -> (In emp_id P <-> In emp_id P')) ->
  generate_attendance_sql
    {| present_employee_ids := Some P; all_employee_ids := Some A;
       meeting_time_str := time; meeting_date := date;
       inserted_by_id := by_id |} w
  = generate_attendance_sql
      {| present_employee_ids := Some P'; all_employee_ids := Some A;
         meeting_time_str := time; meeting_date := date;
         inserted_by_id := by_id |} w.
Proof.
  intros HP HP' Hmem.
  unfold generate_attendance_sql, all_fields_truthy.
  cbn [get_list present_employee_ids all_employee_ids meeting_time_str
       meeting_date inserted_by_id].
  replace (truthy_list P') with (truthy_list P)
    by (destruct P, P'; try contradiction; reflexivity).
  destruct (negb _); [reflexivity|].
  apply draft_loop_ext. intros emp_id Hin.
  unfold request_for, attendance_type_of. do 2 f_equal.
  destruct (mem emp_id P) eqn:E1, (mem emp_id P') eqn:E2; try reflexivity.
  - apply mem_In, (Hmem emp_id Hin), mem_In in E1. congruence.
  - apply mem_In, (Hmem emp_id Hin), mem_In in E2. congruence.
Qed.

End Outcomes.

Lemma present_ids_by_membership_witness :
  generate_attendance_sql (service := example_service)
    {| present_employee_ids := Some ["1483"];
       all_employee_ids := Some ["1483"; "1500"];
       meeting_time_str := Some "09:00:00";
       meeting_date := Some "2025-06-05";
       inserted_by_id := Some "1483" |} (example_world 0)
  = generate_attendance_sql (service := example_service)
      {| present_employee_ids := Some ["9999"; "1483"; "1483"];
         all_employee_ids := Some ["1483"; "1500"];
         meeting_time_str := Some "09:00:00";
         meeting_date := Some "2025-06-05";
         inserted_by_id := Some "1483" |} (example_world 0).
Proof.
  apply (present_ids_by_membership (service := example_service));
    try discriminate.
  intros emp_id [<-|[<-|[]]]; simpl; split; intros H.
  - tauto.
  - tauto.
  - destruct H as [H|[]]; discriminate.
  - destruct H as [H|[H|[H|[]]]]; discriminate.
Defined.

End DraftingFacts.

(** ** Execution, for any request *)

Module ExecutionFacts.
Import Executor ExecutorFacts ValidatorFacts.

Section AnyStore.
Context {db : AttendanceStore}.

(** What the loop sends to the store is an initial segment of the batch,
    every statement of it checked, and the whole batch when the loop ends
    normally. *)
Lemma run_queries_segment (batch : list string) :
  forall st evs,
    exists executed rest,
      batch = (executed ++ rest)%list
      /\ snd (run_queries batch st evs) = (evs ++ map EvExecute executed)%list
      /\ Forall (fun q => validate_query q = None) executed
      /\ (forall st', fst (run_queries batch st evs) = inl st' ->
            rest = [] /\ Runs st batch st')
      /\ (forall e, fst (run_queries batch st evs) = inr e ->
            exists k, first_failure batch st = Some (k, e)).
Proof.
  induction batch as [|q batch IH]; intros st evs.
  - exists [], []. cbn. rewrite app_nil_r.
    split; [reflexivity|]. split; [reflexivity|]. split; [constructor|].
    split; [intros st' [= <-]; split; [reflexivity | constructor]|].
    intros e He; discriminate.
  - cbn [run_queries first_failure].
    destruct (validate_query q) as [msg|] eqn:Hv.
    + exists [], (q :: batch). cbn. rewrite app_nil_r.
      split; [reflexivity|]. split; [reflexivity|]. split; [constructor|].
      split; [intros st' H; discriminate|].
      intros e [= <-]. eauto.
    + destruct (db_execute st q) as [st1|e1] eqn:He.
      * destruct (IH st1 (evs ++ [EvExecute q])%list)
          as [executed [rest [Hb [Hev [Hall [Hok Herr]]]]]].
        exists (q :: executed), rest. cbn [app map].
        split; [now rewrite Hb|]. split; [now rewrite Hev, <- app_assoc|].
        split; [now constructor|]. split.
        -- intros st' H. destruct (Hok st' H) as [Hr Hruns].
           split; [exact Hr | econstructor; eassumption].
        -- intros e H. destruct (Herr e H) as [k Hk]. rewrite Hk. eauto.
      * exists [q], batch. cbn.
        split; [reflexivity|]. split; [reflexivity|].
        split; [now repeat constructor|].
        split; [intros st' H; discriminate|].
        intros e [= <-]. eauto.
Qed.

(** X9: a statement reaches the store only after it has passed the check:
    every statement the handler executes is one of the batch, has the
    required shape and holds no denylisted keyword. *)
Theorem only_checked_statements_executed
  (field : option (list string)) (w : World) (q : string) :
  In (EvExecute q) (events (snd (execute_generated_sql field w))) ->
  In (EvExecute q) (events w)
  \/ (In q (match field with Some l => l | None => [] end)
      /\ validate_query q = None
      /\ forall k, In k dangerous_keywords ->
           contains k (upper (strip q)) = false).
Proof.
  unfold execute_generated_sql. cbv zeta.
  set (batch := match field with Some l => l | None => [] end).
  destruct (truthy_list batch); cbn [negb]; [|now left].
  destruct (reachable w); cbn [negb].
  - destruct (run_queries_segment batch (committed w)
                (events w ++ [EvConnect DB_NAME_NRKINDEX_TRN true])%list)
      as [executed [rest [Hb [Hev [Hall _]]]]].
    destruct (run_queries batch (committed w) _) as [[st'|e] evs'];
      cbn [snd events] in *; subst evs'; intros Hin;
      repeat (apply in_app_or in Hin as [Hin|Hin]);
      try (now left);
      try (cbn in Hin; intuition discriminate).
    all: apply in_map_iff in Hin as [q' [[= ->] Hq]]; right.
    all: rewrite Forall_forall in Hall; specialize (Hall q Hq).
    all: split; [rewrite Hb; apply in_or_app; now left|].
    all: split; [exact Hall|].
    all: intros k Hk; apply validate_query_accepts in Hall as [_ Hno].
    all: unfold has_dangerous_keyword in Hno.
    all: destruct (contains k (upper (strip q))) eqn:E; [|reflexivity].
    all: assert (existsb (fun keyword => contains keyword (upper (strip q)))
                   dangerous_keywords = true)
           by (apply existsb_exists; eauto); congruence.
  - cbn [snd events]. intros Hin. apply in_app_or in Hin as [Hin|Hin];
      [now left | cbn in Hin; intuition discriminate].
Qed.

(** X10: the handler's dealings with the database have one of three
    shapes.  None at all (empty batch, 400); one failed attempt to connect
    (500); or a connection, the execution of an initial segment of the
    batch, then a commit (200, whole batch) or a rollback (500, store
    untouched), and in both cases the connection is closed last. *)
Theorem execute_outcomes (field : option (list string)) (w : World) :
  let batch := match field with Some l => l | None => [] end in
  let result := execute_generated_sql field w in
  (batch = [] /\ result = (jsonify (ErrorBody no_queries_message) 400, w))
  \/ (batch <> [] /\ reachable w = false
      /\ fst result
         = jsonify (ErrorBody (connect_failed_message DB_NAME_NRKINDEX_TRN)) 500
      /\ committed (snd result) = committed w
      /\ events (snd result)
         = (events w ++ [EvConnect DB_NAME_NRKINDEX_TRN false])%list)
  \/ (batch <> [] /\ reachable w = true
      /\ exists executed rest,
           batch = (executed ++ rest)%list
           /\ ((status (fst result) = 200 /\ rest = []
                /\ events (snd result)
                   = (events w
                      ++ EvConnect DB_NAME_NRKINDEX_TRN true
                           :: map EvExecute executed ++ [EvCommit; EvClose])%list)
               \/ (status (fst result) = 500
                   /\ committed (snd result) = committed w
                   /\ events (snd result)
                      = (events w
                         ++ EvConnect DB_NAME_NRKINDEX_TRN true
                              :: map EvExecute executed
                              ++ [EvRollback; EvClose])%list))).
Proof.
  cbv zeta. set (batch := match field with Some l => l | None => [] end).
  assert (Hfield : execute_generated_sql field w
                   = execute_generated_sql (Some batch) w)
    by (destruct field; reflexivity).
  rewrite Hfield.
  destruct batch as [|q0 batch0] eqn:Eb; [left; split; reflexivity|].
  right. rewrite <- Eb.
  assert (Hne : batch <> []) by (rewrite Eb; discriminate).
  destruct (reachable w) eqn:Hr.
  - right. split; [exact Hne|]. split; [reflexivity|].
    rewrite (execute_non_empty batch w Hne Hr).
    destruct (run_queries_segment batch (committed w)
                (events w ++ [EvConnect DB_NAME_NRKINDEX_TRN true])%list)
      as [executed [rest [Hb [Hev [_ [Hok _]]]]]].
    exists executed, rest. split; [exact Hb|].
    destruct (run_queries batch (committed w) _) as [[st'|e] evs'];
      cbn [fst snd status jsonify committed events] in *; subst evs'.
    + left. destruct (Hok st' eq_refl) as [Hrest _].
      split; [reflexivity|]. split; [exact Hrest|].
      now rewrite <- !app_assoc.
    + right. split; [reflexivity|]. split; [reflexivity|].
      now rewrite <- !app_assoc.
  - left. split; [exact Hne|]. split; [reflexivity|].
    rewrite (execute_unreachable batch w Hne Hr). repeat split.
Qed.

(** X11: the handler answers 200 exactly when the batch is not empty, the
    connection is obtained and every statement passes the check and
    executes; the store then holds the state reached by the whole batch.
    In every other case the store holds what it held. *)
Theorem success_iff_all_run (field : option (list string)) (w : World) :
  let batch := match field with Some l => l | None => [] end in
  let result := execute_generated_sql field w in
  (status (fst result) = 200 <->
     batch <> [] /\ reachable w = true
     /\ exists st', Runs (committed w) batch st')
  /\ (status (fst result) = 200 -> Runs (committed w) batch (committed (snd result)))
  /\ (status (fst result) <> 200 -> committed (snd result) = committed w).
Proof.
  cbv zeta. set (batch := match field with Some l => l | None => [] end).
  assert (Hfield : execute_generated_sql field w
                   = execute_generated_sql (Some batch) w)
    by (destruct field; reflexivity).
  rewrite Hfield.
  destruct batch as [|q0 batch0] eqn:Eb.
  { cbn. split; [split; [discriminate | intros [H _]; now contradiction H]|].
    split; [discriminate | reflexivity]. }
  rewrite <- Eb.
  assert (Hne : batch <> []) by (rewrite Eb; discriminate).
  destruct (reachable w) eqn:Hr.
  - rewrite (execute_non_empty batch w Hne Hr).
    destruct (run_queries_segment batch (committed w)
                (events w ++ [EvConnect DB_NAME_NRKINDEX_TRN true])%list)
      as [executed [rest [_ [_ [_ [Hok Herr]]]]]].
    destruct (run_queries batch (committed w) _) as [[st'|e] evs'];
      cbn [fst snd status jsonify committed] in *.
    + destruct (Hok st' eq_refl) as [_ Hruns].
      split; [split; [eauto | reflexivity]|].
      split; [intros _; exact Hruns | intros H; now contradiction H].
    + destruct (Herr e eq_refl) as [k Hk].
      split; [split; [discriminate|]|split; [discriminate | reflexivity]].
      intros [_ [_ Hruns]]. apply Runs_first_failure in Hruns. congruence.
  - rewrite (execute_unreachable batch w Hne Hr).
    cbn [fst snd status jsonify committed].
    split; [split; [discriminate | intros [_ [H _]]; discriminate]|].
    split; [discriminate | reflexivity].
Qed.

End AnyStore.

End ExecutionFacts.

Module ExecutionExamples.
Import Executor.

Lemma only_checked_statements_executed_witness :
  validate_query example_statement = None
  /\ forall k, In k dangerous_keywords ->
       contains k (upper (strip example_statement)) = false.
Proof.
  destruct (ExecutionFacts.only_checked_statements_executed (db := list_store)
              (Some [example_statement; not_an_insert]) (list_world [])
              example_statement) as [H|[_ H]].
  - vm_compute. tauto.
  - vm_compute in H. contradiction.
  - exact H.
Defined.

End ExecutionExamples.

(** ** The front page and the listing *)

Module FrontendFacts.
Import Directory Frontend.

Section AnyDirectory.
Context {dir : DirectoryStore}.


(** X13: the listing answers 200 exactly when the directory is reached and
    serves the query; a connection that was obtained is closed whether the
    query succeeds or raises, and the query is the only statement sent. *)
Theorem listing_outcomes (w : World) :
  let (response, evs) := get_all_employees w in
  (status response = 200 <-> reachable w = true /\ query_error w = None)
  /\ (reachable w = false ->
        response = jsonify (ErrorBody (connect_failed_message DB_NAME_CR)) 500
        /\ evs = [EvConnect DB_NAME_CR false])
  /\ (reachable w = true ->
        evs = [EvConnect DB_NAME_CR true; EvExecute employees_query; EvClose]
        /\ forall e, query_error w = Some e ->
             response = jsonify (ErrorBody (fetch_error_message e)) 500).
Proof.
  unfold get_all_employees, cur_execute.
  destruct (reachable w); cbn [negb].
  - destruct (query_error w) as [e|]; [|rewrite String.eqb_refl]; cbn.
    + split; [split; [discriminate | intros [_ H]; discriminate]|].
      split; [discriminate|]. intros _. split; [reflexivity|].
      now intros e' [= <-].
    + split; [split; auto|]. split; [discriminate|].
      intros _. split; [reflexivity | discriminate].
  - cbn. split; [split; [discriminate | intros [H _]; discriminate]|].
    split; [auto | discriminate].
Qed.

End AnyDirectory.

End FrontendFacts.

(** ** Start-up *)

Module StartupFacts.
Import Startup.

Lemma truthy_spec (v : option string) :
  truthy v = true <-> exists s, v = Some s /\ s <> "".
Proof.
  destruct v as [[|c s]|]; simpl; split; try discriminate; eauto.
  - intros [s [[= <-] H]]. now contradiction H.
  - intros _. eexists. split; [reflexivity | discriminate].
  - intros [s [H _]]. discriminate.
Qed.

Lemma db_check_spec (env : environ) :
  forallb (fun b : bool => b)
    [truthy (env "DB_HOST"); truthy (env "DB_PORT"); truthy (env "DB_USER");
     truthy (env "DB_PASSWORD"); truthy (env "DB_NAME_CR");
     truthy (env "DB_NAME_NRKINDEX_TRN")] = true
  <-> forall k, In k db_variables -> truthy (env k) = true.
Proof.
  change [truthy (env "DB_HOST"); truthy (env "DB_PORT"); truthy (env "DB_USER");
          truthy (env "DB_PASSWORD"); truthy (env "DB_NAME_CR");
          truthy (env "DB_NAME_NRKINDEX_TRN")]
    with (map (fun k => truthy (env k)) db_variables).
  rewrite forallb_forall. split.
  - intros H k Hk. apply (H (truthy (env k))).
    apply in_map_iff. now exists k.
  - intros H b Hb. apply in_map_iff in Hb as [k [<- Hk]]. now apply H.
Qed.

(** X14: start-up goes through exactly when the API key and the six
    database variables are all set and non-empty, and then the settings
    are the values of the environment.  A missing or empty API key stops
    it with the API-key error whatever the database variables are; with
    the key set, a missing or empty database variable stops it with the
    database error. *)
Theorem startup_outcomes (env : environ) :
  ((exists cfg printed, startup env = inl (cfg, printed)) <->
     forall k, In k ("GROQ_API_KEY" :: db_variables) ->
       exists v, env k = Some v /\ v <> "")
  /\ (forall cfg printed, startup env = inl (cfg, printed) ->
        cfg = Build_Settings
                (env "GROQ_API_KEY") (env "DB_HOST") (env "DB_PORT")
                (env "DB_USER") (env "DB_PASSWORD") (env "DB_NAME_CR")
                (env "DB_NAME_NRKINDEX_TRN")
        /\ printed = config_lines cfg)
  /\ (truthy (env "GROQ_API_KEY") = false ->
        startup env = inr groq_key_message)
  /\ (truthy (env "GROQ_API_KEY") = true ->
        (exists k, In k db_variables /\ truthy (env k) = false) ->
        startup env = inr db_config_message).
Proof.
  unfold startup. cbv zeta.
  pose proof (db_check_spec env) as Hdb.
  destruct (truthy (env "GROQ_API_KEY")) eqn:G; cbn [negb].
  - destruct (forallb _ _) eqn:D; cbn [negb].
    + assert (Hall : forall k, In k db_variables -> truthy (env k) = true)
        by now apply Hdb.
      split; [split|].
      * intros _ k [<-|Hk]; apply truthy_spec; [exact G | now apply Hall].
      * eauto.
      * split; [now intros cfg printed [= <- <-]|].
        split; [discriminate|].
        intros _ [k [Hk Hf]]. rewrite (Hall k Hk) in Hf. discriminate.
    + split; [split|].
      * intros [cfg [printed H]]. discriminate.
      * intros Hall.
        assert (Htrue : false = true); [|discriminate].
        apply Hdb. intros k Hk. apply truthy_spec, Hall. now right.
      * split; [intros cfg printed H; discriminate|].
        split; [discriminate | reflexivity].
  - split; [split|].
    + intros [cfg [printed H]]. discriminate.
    + intros Hall.
      assert (Hs : truthy (env "GROQ_API_KEY") = true)
        by (apply truthy_spec, Hall; now left).
      congruence.
    + split; [intros cfg printed H; discriminate|].
      split; [reflexivity | discriminate].
Qed.

Lemma str_mul_length_only (a b : option string) :
  option_map String.length a = option_map String.length b ->
  truthy a = truthy b
  /\ (truthy a = true -> str_mul "*" (len a) = str_mul "*" (len b)).
Proof.
  destruct a as [[|x a]|], b as [[|y b]|]; cbn; try discriminate;
    intros H; split; try reflexivity; try discriminate.
  intros _. injection H as H. unfold len. cbn [fmt String.length].
  now rewrite H.
Qed.

(** X15: what start-up shows of the password is its length and nothing
    else: two environments that differ only in the password, with
    passwords of the same length, produce the same printed lines (or the
    same error). *)
Theorem startup_shows_password_length_only (env1 env2 : environ) :
  (forall k, k <> "DB_PASSWORD" -> env1 k = env2 k) ->
  option_map String.length (env1 "DB_PASSWORD")
  = option_map String.length (env2 "DB_PASSWORD") ->
  startup_output env1 = startup_output env2.
Proof.
  intros Hsame Hlen.
  destruct (str_mul_length_only _ _ Hlen) as [Ht Hmask].
  assert (E1 : env1 "GROQ_API_KEY" = env2 "GROQ_API_KEY")
    by (apply Hsame; discriminate).
  assert (E2 : env1 "DB_HOST" = env2 "DB_HOST") by (apply Hsame; discriminate).
  assert (E3 : env1 "DB_PORT" = env2 "DB_PORT") by (apply Hsame; discriminate).
  assert (E4 : env1 "DB_USER" = env2 "DB_USER") by (apply Hsame; discriminate).
  assert (E5 : env1 "DB_NAME_CR" = env2 "DB_NAME_CR")
    by (apply Hsame; discriminate).
  assert (E6 : env1 "DB_NAME_NRKINDEX_TRN" = env2 "DB_NAME_NRKINDEX_TRN")
    by (apply Hsame; discriminate).
  unfold startup_output, startup. cbv zeta.
  rewrite E1, E2, E3, E4, E5, E6, Ht.
  destruct (truthy (env2 "GROQ_API_KEY")); cbn [negb]; [|reflexivity].
  destruct (forallb _ _); cbn [negb]; [|reflexivity].
  f_equal. unfold config_lines.
  cbn [DB_HOST DB_PORT DB_USER DB_PASSWORD DB_NAME_CR DB_NAME_NRKINDEX_TRN].
  rewrite Ht. destruct (truthy (env2 "DB_PASSWORD")) eqn:Hp; [|reflexivity].
  rewrite Hmask by (rewrite Ht; reflexivity). reflexivity.
Qed.

Lemma startup_shows_password_length_only_witness :
  startup_output (example_env "hunter2") = startup_output (example_env "s3cr3t!").
Proof.
  apply (startup_shows_password_length_only
           (example_env "hunter2") (example_env "s3cr3t!")).
  - intros k Hk. unfold example_env. cbn [env_of].
    repeat match goal with
           | |- context [String.eqb k ?x] =>
               destruct (String.eqb_spec k x);
               [try reflexivity; try contradiction|]
           end.
    reflexivity.
  - reflexivity.
Defined.

End StartupFacts.
